(** * contact-backend/index.js: the contact-form endpoint

    A shallow embedding of the request handler of [POST /send] together with
    its two helpers [isValidEmail] and [sanitizeInput], and the properties of
    the specification that hold (or fail) on it.

    JavaScript strings are sequences of UTF-16 code units; the regular
    expressions of the file carry no [u] flag, so they too work code unit by
    code unit.  A string is therefore a list of code units, each an [N]. *)

From Stdlib Require Import List NArith Bool Ascii String Lia.
Import ListNotations.

(** ** Strings *)

Definition jsstring : Type := list N.

(** The code units of an ASCII literal of the source. *)
Definition lit (s : string) : jsstring :=
  map N_of_ascii (list_ascii_of_string s).

Definition jsstring_eqb (s t : jsstring) : bool :=
  if list_eq_dec N.eq_dec s t then true else false.

(** [\s] of a regular expression and the code units [String.prototype.trim]
    removes are the same set: ECMAScript's WhiteSpace and LineTerminator. *)
Definition isWhiteSpace (c : N) : bool :=
  existsb (N.eqb c)
    [0x09; 0x0A; 0x0B; 0x0C; 0x0D; 0x20; 0xA0; 0x1680; 0x2028; 0x2029;
     0x202F; 0x205F; 0x3000; 0xFEFF]%N
  || ((0x2000 <=? c) && (c <=? 0x200A))%N.

(** [String.prototype.trimStart], [trimEnd] and [trim]. *)
Fixpoint trimStart (s : jsstring) : jsstring :=
  match s with
  | [] => []
  | c :: s' => if isWhiteSpace c then trimStart s' else s
  end.

Definition trimEnd (s : jsstring) : jsstring := rev (trimStart (rev s)).

Definition trim (s : jsstring) : jsstring := trimEnd (trimStart s).

(** ** Character classes and regular expressions *)

(** What may stand between the brackets of a class: an escape [\s] or a
    single code unit. *)
Inductive atom : Type :=
| AWhiteSpace
| AChar (c : N).

Inductive cclass : Type :=
| Single (c : N)              (* a literal or escaped code unit, [@], [\.], [\n] *)
| OneOf (atoms : list atom)   (* [[...]] *)
| NoneOf (atoms : list atom). (* [[^...]] *)

Definition atom_matches (a : atom) (c : N) : bool :=
  match a with
  | AWhiteSpace => isWhiteSpace c
  | AChar d => N.eqb c d
  end.

Definition class_matches (k : cclass) (c : N) : bool :=
  match k with
  | Single d => N.eqb c d
  | OneOf atoms => existsb (fun a => atom_matches a c) atoms
  | NoneOf atoms => negb (existsb (fun a => atom_matches a c) atoms)
  end.

(** [String.prototype.replace] with a global one-class pattern and a fixed
    replacement: every code unit of the class becomes the replacement. *)
Definition replace_global (k : cclass) (replacement s : jsstring) : jsstring :=
  flat_map (fun c => if class_matches k c then replacement else [c]) s.

(** ** Values *)

(** The handler looks at a value of the parsed body in three ways only: its
    truthiness, whether [typeof] says ["string"], and (the e-mail field) its
    conversion to a string by [RegExp.prototype.test].  A number is kept as
    what these observations give on it; so is an object (arrays included),
    whose conversion to a string may throw a [TypeError]. *)
Record number : Type := {
  num_truthy : bool;          (* false for [0], [-0] and [NaN] *)
  num_toString : jsstring
}.

Record object : Type := {
  obj_toString : option jsstring   (* [None]: ToPrimitive throws *)
}.

Inductive value : Type :=
| VUndefined
| VNull
| VBoolean (b : bool)
| VNumber (n : number)
| VString (s : jsstring)
| VObject (o : object).

Definition typeof (v : value) : string :=
  match v with
  | VUndefined => "undefined"
  | VNull => "object"
  | VBoolean _ => "boolean"
  | VNumber _ => "number"
  | VString _ => "string"
  | VObject _ => "object"
  end.

(** ToBoolean. *)
Definition truthy (v : value) : bool :=
  match v with
  | VUndefined | VNull => false
  | VBoolean b => b
  | VNumber n => num_truthy n
  | VString s => negb (jsstring_eqb s [])
  | VObject _ => true
  end.

(** [v === s] for a string literal [s]. *)
Definition strict_eq_string (v : value) (s : jsstring) : bool :=
  match v with
  | VString t => jsstring_eqb t s
  | _ => false
  end.

(** ** The sanitizer *)

(** [/[<>]/g] *)
Definition angleBrackets : cclass := OneOf [AChar 60; AChar 62].

(**
<<
function sanitizeInput(input) {
  if (typeof input !== "string") return "";
  return input.trim().replace(/[<>]/g, "");
}
>> *)
Definition sanitizeInput (input : value) : jsstring :=
  if negb (String.eqb (typeof input) "string") then lit ""
  else
    match input with
    | VString s => replace_global angleBrackets (lit "") (trim s)
    | _ => lit ""   (* not reached: only a string has type "string" *)
    end.

(** ** Regular expressions *)

(** The patterns of the file use classes, sequencing and [+]; the other
    constructors are what derivatives of these need. *)
Inductive regex : Type :=
| Void
| Eps
| Class (k : cclass)
| Seq (r1 r2 : regex)
| Alt (r1 r2 : regex)
| Star (r : regex)
| Plus (r : regex).

Fixpoint nullable (r : regex) : bool :=
  match r with
  | Void => false
  | Eps => true
  | Class _ => false
  | Seq r1 r2 => nullable r1 && nullable r2
  | Alt r1 r2 => nullable r1 || nullable r2
  | Star _ => true
  | Plus r1 => nullable r1
  end.

Fixpoint deriv (c : N) (r : regex) : regex :=
  match r with
  | Void => Void
  | Eps => Void
  | Class k => if class_matches k c then Eps else Void
  | Seq r1 r2 =>
      if nullable r1 then Alt (Seq (deriv c r1) r2) (deriv c r2)
      else Seq (deriv c r1) r2
  | Alt r1 r2 => Alt (deriv c r1) (deriv c r2)
  | Star r1 => Seq (deriv c r1) (Star r1)
  | Plus r1 => Seq (deriv c r1) (Star r1)
  end.

(** Whether the whole of [s] matches [r]: what [/^r$/.test(s)] returns, the
    pattern being anchored at both ends and having no flags. *)
Fixpoint regex_match (r : regex) (s : jsstring) : bool :=
  match s with
  | [] => nullable r
  | c :: s' => regex_match (deriv c r) s'
  end.

(** ToString; [None] when the conversion throws. *)
Definition ToString (v : value) : option jsstring :=
  match v with
  | VUndefined => Some (lit "undefined")
  | VNull => Some (lit "null")
  | VBoolean b => Some (if b then lit "true" else lit "false")
  | VNumber n => Some (num_toString n)
  | VString s => Some s
  | VObject o => obj_toString o
  end.

(** ** Effects: events, exceptions *)

(** An error object, as thrown by the engine or by the mail module: the
    handler reads its [code]; everything else of it is [detail]. *)
Record error : Type := {
  code : value;
  detail : jsstring
}.

Definition TypeError (msg : jsstring) : error :=
  {| code := VUndefined; detail := msg |}.

(** The argument of [sendEmail]. *)
Record mail : Type := {
  to : value;
  mail_subject : jsstring;
  text : jsstring;
  html : jsstring
}.

(** [res.status(st).json({ success, message })] *)
Record payload : Type := {
  success : bool;
  message : jsstring
}.

Record response : Type := {
  status : N;
  json : payload
}.

Inductive event : Type :=
| ConsoleLog (line : jsstring)
| ConsoleError (label : jsstring) (err : error)
| SendEmail (options : mail)
| Respond (r : response).

(** A computation leaves a trace of events and ends with a value or with a
    thrown error. *)
Definition io (A : Type) : Type := (list event * (error + A))%type.

Definition ret {A : Type} (a : A) : io A := ([], inr a).

Definition throw {A : Type} (e : error) : io A := ([], inl e).

Definition bind {A B : Type} (m : io A) (f : A -> io B) : io B :=
  match m with
  | (t, inl e) => (t, inl e)
  | (t, inr a) => let (t', r) := f a in (t ++ t', r)
  end.

Definition try_catch {A : Type} (m : io A) (handler : error -> io A) : io A :=
  match m with
  | (t, inl e) => let (t', r) := handler e in (t ++ t', r)
  | (t, inr a) => (t, inr a)
  end.

Definition emit (ev : event) : io unit := ([ev], inr tt).

Declare Scope io_scope.
Delimit Scope io_scope with io.
Notation "x <- m ;; k" := (bind m (fun x => k))
  (at level 61, m at next level, right associativity) : io_scope.
Notation "m ;; k" := (bind m (fun _ => k))
  (at level 61, right associativity) : io_scope.
Open Scope io_scope.

Definition trace {A : Type} (m : io A) : list event := fst m.

(** [emailRegex.test(v)]: the argument is converted to a string first. *)
Definition RegExp_test (r : regex) (v : value) : io bool :=
  match ToString v with
  | Some s => ret (regex_match r s)
  | None => throw (TypeError (lit "Cannot convert object to primitive value"))
  end.

(** ** The validator *)

(** [[^\s@]] *)
Definition notSpaceNorAt : cclass := NoneOf [AWhiteSpace; AChar 64].

(** [/^[^\s@]+@[^\s@]+\.[^\s@]+$/], the part between the anchors. *)
Definition emailRegex : regex :=
  Seq (Plus (Class notSpaceNorAt))
   (Seq (Class (Single 64))
    (Seq (Plus (Class notSpaceNorAt))
     (Seq (Class (Single 46))
          (Plus (Class notSpaceNorAt))))).

(**
<<
function isValidEmail(email) {
  const emailRegex = /^[^\s@]+@[^\s@]+\.[^\s@]+$/;
  return emailRegex.test(email);
}
>> *)
Definition isValidEmail (email : value) : io bool :=
  RegExp_test emailRegex email.

(** ** The handler of [POST /send] *)

(** What the handler reads from its surroundings: the configured address,
    the two readings of the clock ([new Date().toLocaleString()], once for
    each body), and the mail module ([require("./sendEmail")]), whose
    promise resolves or rejects with an error. *)
Inductive outcome : Type :=
| Resolved
| Rejected (err : error).

Record env : Type := {
  EMAIL_USER : value;                (* [process.env.EMAIL_USER] *)
  now_text : jsstring;
  now_html : jsstring;
  sendEmail : mail -> outcome
}.

(** [const { name, email, phone, subject, message } = req.body;] the parsed
    body is an object, and a field it lacks is [undefined].  ([message_]: the
    payload of a response has a [message] too.) *)
Record body : Type := {
  name : value;
  email : value;
  phone : value;
  subject : value;
  message_ : value
}.

Record sanitized : Type := {
  s_name : jsstring;
  s_email : jsstring;
  s_phone : jsstring;
  s_subject : jsstring;
  s_message : jsstring
}.

Definition LF : jsstring := [10%N].

(** [s || d] on strings. *)
Definition or_else (s d : jsstring) : jsstring :=
  if jsstring_eqb s [] then d else s.

(** The template literal of [text]. *)
Definition text_template (sanitizedData : sanitized) (now : jsstring) : jsstring :=
  List.concat
    [ LF;
      lit "Contact Form Submission"; LF;
      LF;
      lit "Name: "; s_name sanitizedData; LF;
      lit "Email: "; s_email sanitizedData; LF;
      lit "Phone: "; or_else (s_phone sanitizedData) (lit "Not provided"); LF;
      lit "Subject: "; s_subject sanitizedData; LF;
      LF;
      lit "Message:"; LF;
      s_message sanitizedData; LF;
      LF;
      lit "---"; LF;
      lit "Submitted at: "; now; LF;
      lit "      " ].

(** The template literal of [html]. *)
Definition html_template (sanitizedData : sanitized) (now : jsstring) : jsstring :=
  List.concat
    [ LF;
      lit "        <h2>Contact Form Submission</h2>"; LF;
      lit "        <p><strong>Name:</strong> "; s_name sanitizedData; lit "</p>"; LF;
      lit "        <p><strong>Email:</strong> "; s_email sanitizedData; lit "</p>"; LF;
      lit "        <p><strong>Phone:</strong> ";
        or_else (s_phone sanitizedData) (lit "Not provided"); lit "</p>"; LF;
      lit "        <p><strong>Subject:</strong> "; s_subject sanitizedData; lit "</p>"; LF;
      lit "        <h3>Message:</h3>"; LF;
      lit "        <p>";
        replace_global (Single 10) (lit "<br>") (s_message sanitizedData);
        lit "</p>"; LF;
      lit "        <hr>"; LF;
      lit "        <p><small>Submitted at: "; now; lit "</small></p>"; LF;
      lit "      " ].

Definition respond (st : N) (p : payload) : io unit :=
  emit (Respond {| status := st; json := p |}).

Definition console_log (line : jsstring) : io unit := emit (ConsoleLog line).

Definition console_error (label : jsstring) (err : error) : io unit :=
  emit (ConsoleError label err).

(** [await sendEmail(options)] *)
Definition await_sendEmail (E : env) (options : mail) : io unit :=
  (emit (SendEmail options) ;;
   match sendEmail E options with
   | Resolved => ret tt
   | Rejected err => throw err
   end).

(** [app.post("/send", async (req, res) => { try { ... } catch (err) { ... } })] *)
Definition send (E : env) (req_body : body) : io unit :=
  try_catch
    (let name := name req_body in
     let email := email req_body in
     let phone := phone req_body in
     let subject := subject req_body in
     let message := message_ req_body in
     if negb (truthy name) || negb (truthy email)
        || negb (truthy subject) || negb (truthy message)
     then respond 400
            {| success := false;
               message := lit "Missing required fields: name, email, subject, and message are required." |}
     else
       valid <- isValidEmail email ;;
       if negb valid
       then respond 400
              {| success := false; message := lit "Invalid email format." |}
       else
         let sanitizedData :=
           {| s_name := sanitizeInput name;
              s_email := sanitizeInput email;
              s_phone := if truthy phone then sanitizeInput phone else lit "";
              s_subject := sanitizeInput subject;
              s_message := sanitizeInput message |} in
         await_sendEmail E
           {| to := EMAIL_USER E;
              mail_subject :=
                lit "Customer Form Apllication: " ++ s_subject sanitizedData;
              text := text_template sanitizedData (now_text E);
              html := html_template sanitizedData (now_html E) |} ;;
         console_log
           (lit "Email sent successfully from " ++ s_email sanitizedData) ;;
         respond 200
           {| success := true; message := lit "Email sent successfully" |})
    (fun err =>
       console_error (lit "Failed to send email:") err ;;
       let errorMessage :=
         if strict_eq_string (code err) (lit "EAUTH")
         then lit "Authentication failed. Please check email credentials."
         else lit "Email sending failed. Please try again later." in
       respond 500 {| success := false; message := errorMessage |}).

(** What a run of the handler did. *)
Definition emails (t : list event) : list mail :=
  flat_map (fun ev => match ev with SendEmail m => [m] | _ => [] end) t.

Definition responses (t : list event) : list response :=
  flat_map (fun ev => match ev with Respond r => [r] | _ => [] end) t.

(** ** Start-up *)

(** The two variables of [process.env] the start-up lines read, once
    [dotenv.config] has run: a variable is a string or is not set. *)
Record process_env : Type := {
  env_EMAIL_USER : option jsstring;
  env_EMAIL_PASS : option jsstring
}.

Definition env_value (x : option jsstring) : value :=
  match x with
  | Some s => VString s
  | None => VUndefined
  end.

(** [process.env.X || "d"]: a string either way. *)
Definition or_string (x : option jsstring) (d : jsstring) : jsstring :=
  match x with
  | Some s => if truthy (VString s) then s else d
  | None => d
  end.

(** [console.log(label, s)] for a string [s] and a label without format
    specifiers: one line, the two with a space between. *)
Definition console_log2 (label s : jsstring) : event :=
  ConsoleLog (label ++ lit " " ++ s).

(**
<<
console.log("cwd:", process.cwd());
console.log("__dirname:", __dirname);
console.log("EMAIL_USERNAME:", process.env.EMAIL_USER || "MISSING");
console.log("EMAIL_PASSWORD:", process.env.EMAIL_PASS ? "LOADED" : "MISSING");
>> *)
Definition startup_log (P : process_env) (cwd dirname : jsstring) : list event :=
  [ console_log2 (lit "cwd:") cwd;
    console_log2 (lit "__dirname:") dirname;
    console_log2 (lit "EMAIL_USERNAME:")
      (or_string (env_EMAIL_USER P) (lit "MISSING"));
    console_log2 (lit "EMAIL_PASSWORD:")
      (if truthy (env_value (env_EMAIL_PASS P))
       then lit "LOADED" else lit "MISSING") ].

(** ** The vocabulary of the specification *)

(** ['<'] or ['>']. *)
Definition isBracket (c : N) : bool := N.eqb c 60 || N.eqb c 62.

Definition keepsChar (c : N) : bool := negb (isBracket c).

Definition startsWithSpace (s : jsstring) : bool :=
  match s with
  | [] => false
  | c :: _ => isWhiteSpace c
  end.

Definition startsWithBracket (s : jsstring) : bool :=
  match s with
  | [] => false
  | c :: _ => isBracket c
  end.

(** No whitespace at either end. *)
Definition is_trimmed (s : jsstring) : bool :=
  negb (startsWithSpace s) && negb (startsWithSpace (rev s)).

(** No bracket at either end. *)
Definition bracket_free_ends (s : jsstring) : bool :=
  negb (startsWithBracket s) && negb (startsWithBracket (rev s)).

Definition all_space (s : jsstring) : Prop :=
  Forall (fun c => isWhiteSpace c = true) s.

(** [t] is [s] without its leading and trailing whitespace. *)
Definition TrimOf (s t : jsstring) : Prop :=
  exists l r, s = l ++ t ++ r /\ all_space l /\ all_space r /\ is_trimmed t = true.

(** [sub] occurs in [s]. *)
Definition Contains (s sub : jsstring) : Prop :=
  exists p q, s = p ++ sub ++ q.

(** The language of a regular expression. *)
Inductive Matches : regex -> jsstring -> Prop :=
| MEps : Matches Eps []
| MClass k c : class_matches k c = true -> Matches (Class k) [c]
| MSeq r1 r2 s1 s2 :
    Matches r1 s1 -> Matches r2 s2 -> Matches (Seq r1 r2) (s1 ++ s2)
| MAltL r1 r2 s : Matches r1 s -> Matches (Alt r1 r2) s
| MAltR r1 r2 s : Matches r2 s -> Matches (Alt r1 r2) s
| MStarNil r : Matches (Star r) []
| MStarApp r s1 s2 :
    Matches r s1 -> Matches (Star r) s2 -> Matches (Star r) (s1 ++ s2)
| MPlus r s1 s2 :
    Matches r s1 -> Matches (Star r) s2 -> Matches (Plus r) (s1 ++ s2).

(** A code unit that is neither whitespace nor ['@']. *)
Definition plainChar (c : N) : bool :=
  negb (isWhiteSpace c) && negb (N.eqb c 64).

(** One or more plain code units. *)
Definition plain_part (s : jsstring) : Prop :=
  s <> [] /\ Forall (fun c => plainChar c = true) s.

(** The shape [local@domain.tld] of the specification. *)
Definition email_shape (s : jsstring) : Prop :=
  exists local domain tld,
    s = local ++ [64%N] ++ domain ++ [46%N] ++ tld
    /\ plain_part local /\ plain_part domain /\ plain_part tld.

(** The four required fields are all truthy. *)
Definition required_present (b : body) : bool :=
  truthy (name b) && truthy (email b)
  && truthy (subject b) && truthy (message_ b).

(** Every field of the body passed through the sanitizer. *)
Definition sanitize_all (b : body) : sanitized :=
  {| s_name := sanitizeInput (name b);
     s_email := sanitizeInput (email b);
     s_phone := sanitizeInput (phone b);
     s_subject := sanitizeInput (subject b);
     s_message := sanitizeInput (message_ b) |}.

(** The responses of the interface to a request the handler answers itself. *)
Definition missingFields : response :=
  {| status := 400;
     json := {| success := false;
                message := lit "Missing required fields: name, email, subject, and message are required." |} |}.

Definition invalidEmail : response :=
  {| status := 400;
     json := {| success := false; message := lit "Invalid email format." |} |}.

Definition emailSent : response :=
  {| status := 200;
     json := {| success := true; message := lit "Email sent successfully" |} |}.

(** The responses to a failure of the mail module. *)
Definition authFailed : response :=
  {| status := 500;
     json := {| success := false;
                message := lit "Authentication failed. Please check email credentials." |} |}.

Definition sendFailed : response :=
  {| status := 500;
     json := {| success := false;
                message := lit "Email sending failed. Please try again later." |} |}.

(** The response to a failure [err]: which of the two, by its code alone. *)
Definition failure_response (err : error) : response :=
  if strict_eq_string (code err) (lit "EAUTH") then authFailed else sendFailed.

(** The fixed label of the subject line. *)
Definition subjectLabel : jsstring := lit "Customer Form Apllication: ".

(** The message of a validated body: fixed recipient, labelled subject, and
    the two templates over the sanitized fields. *)
Definition mail_of (E : env) (b : body) : mail :=
  {| to := EMAIL_USER E;
     mail_subject := subjectLabel ++ sanitizeInput (subject b);
     text := text_template (sanitize_all b) (now_text E);
     html := html_template (sanitize_all b) (now_html E) |}.

(** The free-text required fields. *)
Inductive text_field : Type := FName | FSubject | FMessage.

Definition field_of (f : text_field) (b : body) : value :=
  match f with
  | FName => name b
  | FSubject => subject b
  | FMessage => message_ b
  end.

Definition sanitized_of (f : text_field) (d : sanitized) : jsstring :=
  match f with
  | FName => s_name d
  | FSubject => s_subject d
  | FMessage => s_message d
  end.

(** How often the code unit [c] occurs in [s]. *)
Definition count (c : N) (s : jsstring) : nat := count_occ N.eq_dec s c.

(** The mail module was called with the message of the body and resolved. *)
Definition delivered (E : env) (b : body) : Prop :=
  required_present b = true
  /\ isValidEmail (email b) = ret true
  /\ sendEmail E (mail_of E b) = Resolved.

(** ** Concrete requests and surroundings *)

Module Scenario.

Definition recipient : value := VString (lit "owner@example.org").

(** A mail module that delivers. *)
Definition delivering : env :=
  {| EMAIL_USER := recipient;
     now_text := lit "1/2/2025, 10:00:00 AM";
     now_html := lit "1/2/2025, 10:00:01 AM";
     sendEmail := fun _ => Resolved |}.

(** A mail module whose transport rejects the credentials. *)
Definition unauthenticated : env :=
  {| EMAIL_USER := recipient;
     now_text := lit "1/2/2025, 10:00:00 AM";
     now_html := lit "1/2/2025, 10:00:01 AM";
     sendEmail := fun _ =>
       Rejected {| code := VString (lit "EAUTH");
                   detail := lit "Invalid login: 535 bad credentials" |} |}.

Definition form (n e s m : string) : body :=
  {| name := VString (lit n);
     email := VString (lit e);
     phone := VUndefined;
     subject := VString (lit s);
     message_ := VString (lit m) |}.

(** [{name:"Jo", email:"jo@ex.com", subject:"Hi", message:"Hello"}] *)
Definition A : body := form "Jo" "jo@ex.com" "Hi" "Hello".

(** [{name:"Jo", email:"not-an-email", subject:"Hi", message:"Hello"}] *)
Definition B : body := form "Jo" "not-an-email" "Hi" "Hello".

(** [{}] *)
Definition C : body :=
  {| name := VUndefined; email := VUndefined; phone := VUndefined;
     subject := VUndefined; message_ := VUndefined |}.

(** [{name:"<script>", email:"a@b.com", subject:"s", message:"m"}] *)
Definition D : body := form "<script>" "a@b.com" "s" "m".

(** A name of one space. *)
Definition blank_name : body := form " " "jo@ex.com" "Hi" "Hello".

(** An e-mail of one space. *)
Definition blank_email : body := form "Jo" " " "Hi" "Hello".

(** An accepted address that starts with brackets. *)
Definition bracketed_email : body := form "Jo" "<>@b.c" "Hi" "Hello".

(** Scenario A with the address in an array: [email: ["jo@ex.com"]]. *)
Definition array_email : body :=
  {| name := VString (lit "Jo");
     email := VObject {| obj_toString := Some (lit "jo@ex.com") |};
     phone := VUndefined;
     subject := VString (lit "Hi");
     message_ := VString (lit "Hello") |}.

(** Scenario A with an object that cannot be converted to a string as
    address: [email: {"toString": 1}]. *)
Definition unprintable_email : body :=
  {| name := VString (lit "Jo");
     email := VObject {| obj_toString := None |};
     phone := VUndefined;
     subject := VString (lit "Hi");
     message_ := VString (lit "Hello") |}.

(** Scenario A with a phone given as a number: [phone: 5551234]. *)
Definition numeric_phone : body :=
  {| name := VString (lit "Jo");
     email := VString (lit "jo@ex.com");
     phone := VNumber {| num_truthy := true; num_toString := lit "5551234" |};
     subject := VString (lit "Hi");
     message_ := VString (lit "Hello") |}.

End Scenario.

(** * Properties *)

(** ** Strings *)

Lemma jsstring_eqb_eq (s t : jsstring) : jsstring_eqb s t = true <-> s = t.
Proof.
  unfold jsstring_eqb. destruct (list_eq_dec N.eq_dec s t); split; congruence.
Qed.

Lemma jsstring_eqb_nil (s : jsstring) : jsstring_eqb s [] = false <-> s <> [].
Proof.
  unfold jsstring_eqb. destruct (list_eq_dec N.eq_dec s []); split; congruence.
Qed.

Lemma trimStart_skips (l s : jsstring) :
  all_space l -> trimStart (l ++ s) = trimStart s.
Proof.
  induction 1 as [|c l Hc _ IH]; simpl; [reflexivity|].
  now rewrite Hc.
Qed.

Lemma trimStart_stops (l r : jsstring) (c : N) :
  isWhiteSpace c = false -> trimStart (l ++ c :: r) = trimStart l ++ c :: r.
Proof.
  intros Hc. induction l as [|d l IH]; simpl.
  - now rewrite Hc.
  - destruct (isWhiteSpace d); [exact IH | reflexivity].
Qed.

Lemma trimStart_prefix (s : jsstring) :
  exists l, s = l ++ trimStart s /\ all_space l.
Proof.
  induction s as [|c s [l [Hs Hl]]]; simpl.
  - exists []. split; [reflexivity | constructor].
  - destruct (isWhiteSpace c) eqn:Hc.
    + exists (c :: l). split; [simpl; congruence | now constructor].
    + exists []. split; [reflexivity | constructor].
Qed.

Lemma trimStart_head (s : jsstring) : startsWithSpace (trimStart s) = false.
Proof.
  induction s as [|c s IH]; simpl; [reflexivity|].
  destruct (isWhiteSpace c) eqn:Hc; [exact IH | simpl; exact Hc].
Qed.

Lemma trimStart_fixed (s : jsstring) :
  startsWithSpace s = false -> trimStart s = s.
Proof.
  destruct s as [|c s]; simpl; [reflexivity|]. now intros ->.
Qed.

Lemma trimEnd_suffix (s : jsstring) :
  exists r, s = trimEnd s ++ r /\ all_space r.
Proof.
  unfold trimEnd. destruct (trimStart_prefix (rev s)) as [l [Hs Hl]].
  exists (rev l). split.
  - rewrite <- rev_app_distr, <- Hs. now rewrite rev_involutive.
  - unfold all_space. now apply Forall_rev.
Qed.

Lemma trimEnd_last (s : jsstring) : startsWithSpace (rev (trimEnd s)) = false.
Proof.
  unfold trimEnd. rewrite rev_involutive. apply trimStart_head.
Qed.

Lemma trimEnd_head (s : jsstring) :
  startsWithSpace s = false -> startsWithSpace (trimEnd s) = false.
Proof.
  destruct s as [|c s]; [reflexivity|]. simpl. intros Hc.
  unfold trimEnd. simpl rev. rewrite trimStart_stops by exact Hc.
  rewrite rev_app_distr. simpl. exact Hc.
Qed.

Lemma trim_is_trimmed (s : jsstring) : is_trimmed (trim s) = true.
Proof.
  unfold is_trimmed, trim.
  rewrite trimEnd_head by apply trimStart_head.
  now rewrite trimEnd_last.
Qed.

Lemma trim_fixed (s : jsstring) : trim s = s <-> is_trimmed s = true.
Proof.
  split.
  - intros <-. apply trim_is_trimmed.
  - unfold is_trimmed. intros H. apply andb_prop in H as [H1 H2].
    apply negb_true_iff in H1, H2.
    unfold trim, trimEnd. rewrite (trimStart_fixed _ H1).
    rewrite (trimStart_fixed _ H2). apply rev_involutive.
Qed.

Lemma trim_TrimOf (s : jsstring) : TrimOf s (trim s).
Proof.
  destruct (trimStart_prefix s) as [l [Hs Hl]].
  destruct (trimEnd_suffix (trimStart s)) as [r [Ht Hr]].
  exists l, r. repeat split; try assumption.
  - unfold trim. now rewrite <- Ht.
  - apply trim_is_trimmed.
Qed.

Lemma trim_Forall (P : N -> Prop) (s : jsstring) :
  Forall P s -> Forall P (trim s).
Proof.
  intros H. destruct (trim_TrimOf s) as [l [r [Hs _]]].
  rewrite Hs in H. apply Forall_app in H as [_ H].
  now apply Forall_app in H as [H _].
Qed.

Lemma trim_all_space (s : jsstring) : all_space s -> trim s = [].
Proof.
  intros H. unfold trim.
  replace (trimStart s) with (@nil N); [reflexivity|].
  rewrite <- (app_nil_r s). now rewrite trimStart_skips.
Qed.

Lemma TrimOf_unique (s t : jsstring) : TrimOf s t -> t = trim s.
Proof.
  intros [l [r [Hs [Hl [Hr Ht]]]]]. subst s.
  apply andb_prop in Ht as [H1 H2]. apply negb_true_iff in H1, H2.
  unfold trim. rewrite trimStart_skips by exact Hl.
  destruct t as [|c t].
  - simpl. rewrite <- (app_nil_r r), trimStart_skips by exact Hr. reflexivity.
  - simpl in H1. simpl app. simpl trimStart. rewrite H1.
    unfold trimEnd. change (c :: t ++ r) with ((c :: t) ++ r).
    rewrite rev_app_distr, trimStart_skips by (now apply Forall_rev).
    rewrite (trimStart_fixed _ H2). now rewrite rev_involutive.
Qed.

Lemma angleBrackets_matches (c : N) :
  class_matches angleBrackets c = isBracket c.
Proof.
  unfold isBracket. simpl. now rewrite orb_false_r.
Qed.

Lemma replace_brackets_filter (s : jsstring) :
  replace_global angleBrackets (lit "") s = filter keepsChar s.
Proof.
  unfold replace_global, keepsChar.
  induction s as [|c s IH]; cbn [flat_map filter]; [reflexivity|].
  rewrite angleBrackets_matches, IH.
  now destruct (isBracket c).
Qed.

Lemma filter_keeps_no_bracket (s : jsstring) :
  Forall (fun c => isBracket c = false) (filter keepsChar s).
Proof.
  apply Forall_forall. intros c Hc. apply filter_In in Hc as [_ Hc].
  now apply negb_true_iff in Hc.
Qed.

Lemma filter_keeps_fixed (s : jsstring) :
  Forall (fun c => isBracket c = false) s -> filter keepsChar s = s.
Proof.
  unfold keepsChar. induction 1 as [|c s Hc _ IH]; simpl; [reflexivity|].
  now rewrite Hc, IH.
Qed.

Lemma filter_keeps_head (s : jsstring) :
  startsWithBracket s = false ->
  startsWithSpace (filter keepsChar s) = startsWithSpace s.
Proof.
  destruct s as [|c s]; simpl; [reflexivity|].
  unfold keepsChar. now intros ->.
Qed.

Lemma filter_keeps_trimmed (s : jsstring) :
  bracket_free_ends s = true -> is_trimmed s = true ->
  is_trimmed (filter keepsChar s) = true.
Proof.
  unfold bracket_free_ends, is_trimmed. intros Hb Ht.
  apply andb_prop in Hb as [Hb1 Hb2]. apply negb_true_iff in Hb1, Hb2.
  rewrite <- filter_rev, !filter_keeps_head by assumption. exact Ht.
Qed.

(** ** The sanitizer *)

Lemma sanitizeInput_string (s : jsstring) :
  sanitizeInput (VString s) = filter keepsChar (trim s).
Proof.
  unfold sanitizeInput. simpl. apply replace_brackets_filter.
Qed.

Lemma sanitizeInput_not_string (x : value) :
  typeof x <> "string"%string -> sanitizeInput x = [].
Proof.
  destruct x; simpl; intros H; try reflexivity. now contradiction H.
Qed.

Lemma sanitizeInput_no_bracket (x : value) :
  Forall (fun c => isBracket c = false) (sanitizeInput x).
Proof.
  destruct x; try constructor.
  rewrite sanitizeInput_string. apply filter_keeps_no_bracket.
Qed.

Lemma sanitizeInput_again (x : value) :
  sanitizeInput (VString (sanitizeInput x)) = trim (sanitizeInput x).
Proof.
  rewrite sanitizeInput_string. apply filter_keeps_fixed.
  apply trim_Forall, sanitizeInput_no_bracket.
Qed.

Lemma sanitizeInput_space (s : jsstring) :
  all_space s -> sanitizeInput (VString s) = [].
Proof.
  intros H. rewrite sanitizeInput_string. now rewrite trim_all_space.
Qed.

Lemma sanitizeInput_falsy (x : value) : truthy x = false -> sanitizeInput x = [].
Proof.
  destruct x; try reflexivity. simpl. intros H.
  apply negb_false_iff, jsstring_eqb_eq in H. now subst s.
Qed.

(** The opening bracket of ["< a"] goes, the space behind it stays. *)
Example sanitizeInput_bracket_space :
  sanitizeInput (VString (lit "< a")) = lit " a".
Proof. reflexivity. Qed.

(** Scenario D: the brackets go, the text between them stays. *)
Example sanitizeInput_script :
  sanitizeInput (name Scenario.D) = lit "script".
Proof. reflexivity. Qed.

(** ** Regular expressions: the matcher decides the language *)

Lemma Matches_nil_nullable (r : regex) : Matches r [] <-> nullable r = true.
Proof.
  split.
  - intros H. remember [] as s eqn:Hs.
    induction H; simpl; try reflexivity; try discriminate.
    + apply app_eq_nil in Hs as [-> ->]. now rewrite IHMatches1, IHMatches2.
    + now rewrite IHMatches.
    + rewrite IHMatches by assumption. apply orb_true_r.
    + apply app_eq_nil in Hs as [-> _]. now apply IHMatches1.
  - induction r; simpl; intros H; try discriminate.
    + constructor.
    + apply andb_prop in H as [H1 H2].
      change (@nil N) with (@nil N ++ []). constructor; auto.
    + apply orb_prop in H as [H|H]; [apply MAltL | apply MAltR]; auto.
    + constructor.
    + change (@nil N) with (@nil N ++ []). constructor; [auto | constructor].
Qed.

Lemma Matches_deriv_sound (r : regex) (c : N) (s : jsstring) :
  Matches (deriv c r) s -> Matches r (c :: s).
Proof.
  revert s. induction r; simpl; intros s H.
  - inversion H.
  - inversion H.
  - destruct (class_matches k c) eqn:Hk; inversion H; subst.
    now constructor.
  - destruct (nullable r1) eqn:Hn.
    + inversion H as [| | | ? ? ? H1 | ? ? ? H1 | | |]; subst.
      * inversion H1; subst.
        change (c :: s1 ++ s2) with ((c :: s1) ++ s2). constructor; auto.
      * change (c :: s) with ([] ++ c :: s).
        constructor; [now apply Matches_nil_nullable | auto].
    + inversion H; subst.
      change (c :: s1 ++ s2) with ((c :: s1) ++ s2). constructor; auto.
  - inversion H; subst; [apply MAltL | apply MAltR]; auto.
  - inversion H; subst.
    change (c :: s1 ++ s2) with ((c :: s1) ++ s2). constructor; auto.
  - inversion H; subst.
    change (c :: s1 ++ s2) with ((c :: s1) ++ s2). constructor; auto.
Qed.

Lemma Matches_deriv_complete (r : regex) (c : N) (s : jsstring) :
  Matches r (c :: s) -> Matches (deriv c r) s.
Proof.
  intros H. remember (c :: s) as w eqn:Hw. revert c s Hw.
  induction H as
    [ | k d Hd
      | r1 r2 s1 s2 H1 IH1 H2 IH2
      | r1 r2 w H1 IH1 | r1 r2 w H2 IH2
      | r
      | r s1 s2 H1 IH1 H2 IH2
      | r s1 s2 H1 IH1 H2 IH2 ];
    intros c s Hw; simpl.
  - discriminate.
  - injection Hw as -> <-. rewrite Hd. constructor.
  - destruct s1 as [|c1 s1]; simpl in Hw.
    + apply Matches_nil_nullable in H1. rewrite H1. apply MAltR. auto.
    + injection Hw as -> <-.
      destruct (nullable r1); [apply MAltL|]; constructor; auto.
  - apply MAltL. auto.
  - apply MAltR. auto.
  - discriminate.
  - destruct s1 as [|c1 s1]; simpl in Hw.
    + now apply IH2.
    + injection Hw as -> <-. constructor; auto.
  - destruct s1 as [|c1 s1]; simpl in Hw.
    + now apply (IH2 c s).
    + injection Hw as -> <-. constructor; auto.
Qed.

Lemma regex_match_Matches (r : regex) (s : jsstring) :
  regex_match r s = true <-> Matches r s.
Proof.
  revert r. induction s as [|c s IH]; intros r; simpl.
  - symmetry. apply Matches_nil_nullable.
  - rewrite IH. split; [apply Matches_deriv_sound | apply Matches_deriv_complete].
Qed.

Lemma Matches_Seq (r1 r2 : regex) (s : jsstring) :
  Matches (Seq r1 r2) s <->
  exists s1 s2, s = s1 ++ s2 /\ Matches r1 s1 /\ Matches r2 s2.
Proof.
  split.
  - intros H. inversion H; subst. eauto.
  - intros [s1 [s2 [-> [H1 H2]]]]. now constructor.
Qed.

Lemma Matches_Class (k : cclass) (s : jsstring) :
  Matches (Class k) s <-> exists c, s = [c] /\ class_matches k c = true.
Proof.
  split.
  - intros H. inversion H; subst. eauto.
  - intros [c [-> H]]. now constructor.
Qed.

Lemma Matches_Star_Class (k : cclass) (s : jsstring) :
  Matches (Star (Class k)) s <-> Forall (fun c => class_matches k c = true) s.
Proof.
  split.
  - intros H. remember (Star (Class k)) as r eqn:Hr.
    induction H; try discriminate.
    + constructor.
    + injection Hr as ->. apply Forall_app. split; [|auto].
      apply Matches_Class in H as [c [-> Hc]]. now repeat constructor.
  - induction 1 as [|c s Hc _ IH]; [constructor|].
    change (c :: s) with ([c] ++ s). constructor; [now constructor | exact IH].
Qed.

Lemma Matches_Plus_Class (k : cclass) (s : jsstring) :
  Matches (Plus (Class k)) s <->
  s <> [] /\ Forall (fun c => class_matches k c = true) s.
Proof.
  split.
  - intros H. inversion H as [| | | | | | |? s1 s2 H1 H2]; subst.
    apply Matches_Class in H1 as [c [-> Hc]].
    apply Matches_Star_Class in H2. split; [discriminate | now constructor].
  - intros [Hne H]. destruct H as [|c s Hc H]; [now contradiction Hne|].
    change (c :: s) with ([c] ++ s).
    constructor; [now constructor | now apply Matches_Star_Class].
Qed.

(** ** The validator *)

Lemma notSpaceNorAt_plain (c : N) :
  class_matches notSpaceNorAt c = plainChar c.
Proof.
  unfold plainChar. cbn [class_matches notSpaceNorAt existsb atom_matches].
  now rewrite orb_false_r, negb_orb.
Qed.

Lemma Matches_plain_part (s : jsstring) :
  Matches (Plus (Class notSpaceNorAt)) s <-> plain_part s.
Proof.
  rewrite Matches_Plus_Class. unfold plain_part.
  split; intros [Hne H]; (split; [exact Hne|]);
    (eapply Forall_impl; [|exact H]); intros c; cbv beta;
    now rewrite notSpaceNorAt_plain.
Qed.

Lemma Matches_Single (d : N) (s : jsstring) :
  Matches (Class (Single d)) s <-> s = [d].
Proof.
  rewrite Matches_Class. split.
  - intros [c [-> Hc]]. simpl in Hc. apply N.eqb_eq in Hc. now subst.
  - intros ->. exists d. split; [reflexivity | apply N.eqb_refl].
Qed.

Lemma Matches_emailRegex (s : jsstring) : Matches emailRegex s <-> email_shape s.
Proof.
  unfold emailRegex, email_shape. split.
  - intros H.
    apply Matches_Seq in H as [l [s1 [-> [Hl H]]]].
    apply Matches_Seq in H as [a [s2 [-> [Ha H]]]].
    apply Matches_Seq in H as [d [s3 [-> [Hd H]]]].
    apply Matches_Seq in H as [p [t [-> [Hp Ht]]]].
    apply Matches_Single in Ha, Hp. subst a p.
    exists l, d, t. rewrite <- !Matches_plain_part. auto.
  - intros [l [d [t [-> [Hl [Hd Ht]]]]]].
    rewrite <- Matches_plain_part in Hl, Hd, Ht.
    repeat (apply MSeq; [try assumption; now apply Matches_Single|]).
    assumption.
Qed.

Lemma isValidEmail_string (s : jsstring) :
  isValidEmail (VString s) = ret (regex_match emailRegex s).
Proof. reflexivity. Qed.

Lemma isValidEmail_true_shape (s : jsstring) :
  isValidEmail (VString s) = ret true <-> email_shape s.
Proof.
  rewrite isValidEmail_string, <- Matches_emailRegex, <- regex_match_Matches.
  unfold ret. split; [congruence | now intros ->].
Qed.

(** ** The handler, run by run *)

Lemma strict_eq_string_eq (v : value) (s : jsstring) :
  strict_eq_string v s = true <-> v = VString s.
Proof.
  destruct v; simpl; try (split; [discriminate | congruence]).
  rewrite jsstring_eqb_eq. split; congruence.
Qed.

Lemma required_check (b : body) :
  negb (truthy (name b)) || negb (truthy (email b))
  || negb (truthy (subject b)) || negb (truthy (message_ b))
  = negb (required_present b).
Proof.
  unfold required_present.
  now destruct (truthy (name b)), (truthy (email b)), (truthy (subject b)),
    (truthy (message_ b)).
Qed.

Lemma required_present_fields (b : body) :
  required_present b = true <->
  truthy (name b) = true /\ truthy (email b) = true
  /\ truthy (subject b) = true /\ truthy (message_ b) = true.
Proof.
  unfold required_present. rewrite !andb_true_iff. tauto.
Qed.

Lemma required_missing_fields (b : body) :
  required_present b = false <->
  truthy (name b) = false \/ truthy (email b) = false
  \/ truthy (subject b) = false \/ truthy (message_ b) = false.
Proof.
  unfold required_present. rewrite !andb_false_iff. tauto.
Qed.

(** [phone ? sanitizeInput(phone) : ""] is [sanitizeInput(phone)]: a falsy
    value sanitizes to the empty string too. *)
Lemma phone_sanitized (v : value) :
  (if truthy v then sanitizeInput v else lit "") = sanitizeInput v.
Proof.
  destruct (truthy v) eqn:H; [reflexivity|]. symmetry.
  now apply sanitizeInput_falsy.
Qed.

(** Every run of the handler, by the case it falls in. *)
Lemma send_run (E : env) (b : body) :
  send E b =
  if negb (required_present b) then ([Respond missingFields], inr tt)
  else
    match ToString (email b) with
    | None =>
        ([ConsoleError (lit "Failed to send email:")
            (TypeError (lit "Cannot convert object to primitive value"));
          Respond sendFailed], inr tt)
    | Some s =>
        if regex_match emailRegex s then
          match sendEmail E (mail_of E b) with
          | Resolved =>
              ([SendEmail (mail_of E b);
                ConsoleLog (lit "Email sent successfully from "
                            ++ sanitizeInput (email b));
                Respond emailSent], inr tt)
          | Rejected err =>
              ([SendEmail (mail_of E b);
                ConsoleError (lit "Failed to send email:") err;
                Respond (failure_response err)], inr tt)
          end
        else ([Respond invalidEmail], inr tt)
    end.
Proof.
  unfold send. cbv zeta. rewrite required_check, phone_sanitized.
  destruct (required_present b); [|reflexivity]. cbn [negb].
  unfold isValidEmail, RegExp_test.
  destruct (ToString (email b)) as [s|]; [|reflexivity].
  cbn [bind ret]. destruct (regex_match emailRegex s); [|reflexivity].
  cbn [negb]. unfold await_sendEmail.
  change (sendEmail E _) with (sendEmail E (mail_of E b)).
  destruct (sendEmail E (mail_of E b)) as [|err]; [reflexivity|].
  unfold failure_response, try_catch, bind, emit, throw, console_error, respond.
  cbn [app].
  now destruct (strict_eq_string (code err) (lit "EAUTH")).
Qed.

Lemma isValidEmail_true (v : value) :
  isValidEmail v = ret true <->
  exists s, ToString v = Some s /\ regex_match emailRegex s = true.
Proof.
  unfold isValidEmail, RegExp_test, ret, throw.
  destruct (ToString v) as [s|]; split.
  - intros H. exists s. split; [reflexivity | congruence].
  - intros [s' [[= <-] ->]]. reflexivity.
  - discriminate.
  - intros [s' [[=] _]].
Qed.

Lemma send_missing (E : env) (b : body) :
  required_present b = false -> send E b = ([Respond missingFields], inr tt).
Proof. intros H. now rewrite send_run, H. Qed.

Lemma send_invalid (E : env) (b : body) (s : jsstring) :
  required_present b = true -> ToString (email b) = Some s ->
  regex_match emailRegex s = false ->
  send E b = ([Respond invalidEmail], inr tt).
Proof. intros H Hs Hm. now rewrite send_run, H, Hs, Hm. Qed.

Lemma send_validated (E : env) (b : body) :
  required_present b = true -> isValidEmail (email b) = ret true ->
  send E b =
  match sendEmail E (mail_of E b) with
  | Resolved =>
      ([SendEmail (mail_of E b);
        ConsoleLog (lit "Email sent successfully from "
                    ++ sanitizeInput (email b));
        Respond emailSent], inr tt)
  | Rejected err =>
      ([SendEmail (mail_of E b);
        ConsoleError (lit "Failed to send email:") err;
        Respond (failure_response err)], inr tt)
  end.
Proof.
  intros H Hv. apply isValidEmail_true in Hv as [s [Hs Hm]].
  now rewrite send_run, H, Hs, Hm.
Qed.

Lemma send_emails_validated (E : env) (b : body) :
  required_present b = true -> isValidEmail (email b) = ret true ->
  emails (trace (send E b)) = [mail_of E b].
Proof.
  intros H Hv. rewrite (send_validated E b H Hv).
  now destruct (sendEmail E (mail_of E b)).
Qed.

(** The mail module is called in validated runs only, and with [mail_of]. *)
Lemma send_called (E : env) (b : body) (m : mail) :
  In (SendEmail m) (trace (send E b)) ->
  required_present b = true /\ isValidEmail (email b) = ret true
  /\ m = mail_of E b.
Proof.
  rewrite send_run. destruct (required_present b) eqn:H; cbn [negb].
  - destruct (ToString (email b)) as [s|] eqn:Hs.
    + destruct (regex_match emailRegex s) eqn:Hm.
      * intros Hin. split; [reflexivity|]. split.
        { apply isValidEmail_true. eauto. }
        destruct (sendEmail E (mail_of E b));
          destruct Hin as [Hin|[Hin|[Hin|[]]]]; congruence.
      * intros [Hin|[]]. discriminate.
    + intros [Hin|[Hin|[]]]; discriminate.
  - intros [Hin|[]]. discriminate.
Qed.

Lemma failure_response_cases (err : error) :
  (code err = VString (lit "EAUTH") -> failure_response err = authFailed)
  /\ (code err <> VString (lit "EAUTH") -> failure_response err = sendFailed).
Proof.
  unfold failure_response.
  destruct (strict_eq_string (code err) (lit "EAUTH")) eqn:H.
  - apply strict_eq_string_eq in H. split; [reflexivity | congruence].
  - split; [|reflexivity]. intros Hc. apply strict_eq_string_eq in Hc. congruence.
Qed.

(** The scenarios of the specification. *)
Example scenario_A :
  send Scenario.delivering Scenario.A
  = ([SendEmail (mail_of Scenario.delivering Scenario.A);
      ConsoleLog (lit "Email sent successfully from jo@ex.com");
      Respond emailSent], inr tt).
Proof. reflexivity. Qed.

Example scenario_B :
  send Scenario.delivering Scenario.B = ([Respond invalidEmail], inr tt).
Proof. reflexivity. Qed.

Example scenario_C :
  send Scenario.delivering Scenario.C = ([Respond missingFields], inr tt).
Proof. reflexivity. Qed.

Example scenario_D :
  emails (trace (send Scenario.delivering Scenario.D))
  = [mail_of Scenario.delivering Scenario.D]
  /\ s_name (sanitize_all Scenario.D) = lit "script".
Proof. split; reflexivity. Qed.

(** ** The claims on the handler's early exits *)

(** C1: a body in which [name], [email], [subject] or [message] is absent or
    falsy is answered with status 400 and the missing-fields payload, and
    that response is the whole run: the mail module is not called.  When the
    four are truthy the missing-fields response is never given, whatever
    [phone] is, absent included. *)
Theorem missing_required_fields (E : env) (b : body) :
  (truthy (name b) = false \/ truthy (email b) = false
   \/ truthy (subject b) = false \/ truthy (message_ b) = false ->
   send E b = ([Respond missingFields], inr tt)
   /\ emails (trace (send E b)) = []
   /\ responses (trace (send E b)) = [missingFields])
  /\ (truthy (name b) = true -> truthy (email b) = true ->
      truthy (subject b) = true -> truthy (message_ b) = true ->
      ~ In (Respond missingFields) (trace (send E b))).
Proof.
  split.
  - intros H. apply required_missing_fields in H.
    rewrite (send_missing E b H). now repeat split.
  - intros H1 H2 H3 H4.
    assert (H : required_present b = true)
      by (apply required_present_fields; auto).
    rewrite send_run, H. cbn [negb].
    destruct (ToString (email b)) as [s|].
    + destruct (regex_match emailRegex s).
      * destruct (sendEmail E (mail_of E b)) as [|err].
        -- intros [Hin|[Hin|[Hin|[]]]]; discriminate.
        -- intros [Hin|[Hin|[Hin|[]]]]; try discriminate.
           injection Hin as Hin. unfold failure_response in Hin.
           destruct (strict_eq_string (code err) (lit "EAUTH")); discriminate.
      * intros [Hin|[]]. discriminate.
    + intros [Hin|[Hin|[]]]; discriminate.
Qed.

(** Scenario C, the empty body, and scenario A, which has no phone. *)
Lemma missing_required_fields_witness :
  send Scenario.delivering Scenario.C = ([Respond missingFields], inr tt)
  /\ ~ In (Respond missingFields) (trace (send Scenario.delivering Scenario.A)).
Proof.
  split.
  - apply (proj1 (missing_required_fields Scenario.delivering Scenario.C)).
    left. reflexivity.
  - apply (proj2 (missing_required_fields Scenario.delivering Scenario.A));
      reflexivity.
Defined.

Lemma isValidEmail_false_shape (s : jsstring) :
  isValidEmail (VString s) = ret false <-> ~ email_shape s.
Proof.
  rewrite <- isValidEmail_true_shape, isValidEmail_string. unfold ret.
  destruct (regex_match emailRegex s); split; congruence.
Qed.

Lemma send_no_shape (E : env) (b : body) (s : jsstring) :
  required_present b = true -> ToString (email b) = Some s -> ~ email_shape s ->
  send E b = ([Respond invalidEmail], inr tt).
Proof.
  intros H He Hs. apply isValidEmail_false_shape in Hs.
  rewrite isValidEmail_string in Hs.
  apply (send_invalid E b s H He).
  unfold ret in Hs. destruct (regex_match emailRegex s); congruence.
Qed.

(** An e-mail whose conversion to a string throws (an object with a
    [toString] of its own that is no function) ends in the [catch] block. *)
Lemma send_conversion_throws (E : env) (b : body) :
  required_present b = true -> ToString (email b) = None ->
  responses (trace (send E b)) = [sendFailed] /\ emails (trace (send E b)) = [].
Proof. intros H He. now rewrite send_run, H, He. Qed.

(** A value that is not a string is judged by its conversion to a string:
    an array holding one address converts to that address and passes. *)
Example isValidEmail_array :
  isValidEmail (VObject {| obj_toString := Some (lit "jo@ex.com") |}) = ret true.
Proof. reflexivity. Qed.

(** C2: on a string, [isValidEmail] returns [true] exactly when the string
    has the shape local@domain.tld with three non-empty parts free of
    whitespace and ['@'], and [false] otherwise; a request whose required
    fields are present and whose e-mail is a string without the shape is
    answered with status 400 and "Invalid email format.", whatever the other
    fields are.  (The same holds of any e-mail value whose conversion to a
    string is [s]; a string converts to itself.) *)
Theorem isValidEmail_shape (s : jsstring) :
  (isValidEmail (VString s) = ret true <-> email_shape s)
  /\ (isValidEmail (VString s) = ret false <-> ~ email_shape s)
  /\ (forall (E : env) (b : body),
        required_present b = true -> ToString (email b) = Some s ->
        ~ email_shape s ->
        send E b = ([Respond invalidEmail], inr tt)
        /\ responses (trace (send E b)) = [invalidEmail]
        /\ emails (trace (send E b)) = []).
Proof.
  split; [apply isValidEmail_true_shape|].
  split; [apply isValidEmail_false_shape|].
  intros E b H He Hs. rewrite (send_no_shape E b s H He Hs). now repeat split.
Qed.

Lemma not_an_email_shape : ~ email_shape (lit "not-an-email").
Proof.
  intros H. apply isValidEmail_true_shape in H. discriminate H.
Qed.

(** Scenario B: ["not-an-email"] with every other field valid. *)
Lemma isValidEmail_shape_witness :
  send Scenario.delivering Scenario.B = ([Respond invalidEmail], inr tt).
Proof.
  apply (proj2 (proj2 (isValidEmail_shape (lit "not-an-email")))
           Scenario.delivering Scenario.B).
  - reflexivity.
  - reflexivity.
  - exact not_an_email_shape.
Defined.

(** ** The claims on the sanitizer *)

(** C3, as the code has it: a value that is not a string sanitizes to the
    empty string; a string sanitizes to its trimmed form (the string without
    its leading and trailing whitespace) with every ['<'] and ['>'] removed,
    so the output holds neither character.  The output itself is free of
    surrounding whitespace when the trimmed input neither begins nor ends
    with a bracket; whitespace that a removed bracket separated from the end
    of the input stays. *)
Theorem sanitizeInput_contract (x : value) :
  (typeof x <> "string"%string -> sanitizeInput x = lit "")
  /\ (forall s : jsstring, x = VString s ->
        TrimOf s (trim s)
        /\ sanitizeInput x = filter keepsChar (trim s)
        /\ Forall (fun c => isBracket c = false) (sanitizeInput x)
        /\ (bracket_free_ends (trim s) = true ->
            is_trimmed (sanitizeInput x) = true)).
Proof.
  split; [apply sanitizeInput_not_string|].
  intros s ->. split; [apply trim_TrimOf|].
  split; [apply sanitizeInput_string|].
  split; [apply sanitizeInput_no_bracket|].
  intros H. rewrite sanitizeInput_string.
  apply filter_keeps_trimmed; [exact H | apply trim_is_trimmed].
Qed.

(** A number, and a padded string with brackets inside. *)
Lemma sanitizeInput_contract_witness :
  sanitizeInput (VNumber {| num_truthy := true; num_toString := lit "42" |})
  = lit ""
  /\ sanitizeInput (VString (lit "  a<b>c ")) = lit "abc"
  /\ is_trimmed (sanitizeInput (VString (lit "  a<b>c "))) = true.
Proof.
  split.
  - apply (proj1 (sanitizeInput_contract (VNumber _))). discriminate.
  - destruct (proj2 (sanitizeInput_contract (VString (lit "  a<b>c ")))
                _ eq_refl) as [_ [Hs [_ Ht]]].
    split; [rewrite Hs; reflexivity | apply Ht; reflexivity].
Defined.

(** C3 as the specification words it fails: ["< a"] contains ['<'], and its
    sanitized output [" a"] begins with whitespace. *)
Lemma sanitizeInput_output_untrimmed :
  existsb isBracket (lit "< a") = true
  /\ sanitizeInput (VString (lit "< a")) = lit " a"
  /\ is_trimmed (sanitizeInput (VString (lit "< a"))) = false.
Proof. repeat split. Qed.

(** C4, as the code has it: a second pass of the sanitizer trims the result
    of the first; it changes nothing exactly when that result has no
    surrounding whitespace, which is so for every value that is not a string
    and for every string whose trimmed form neither begins nor ends with a
    bracket. *)
Theorem sanitizeInput_twice (x : value) :
  sanitizeInput (VString (sanitizeInput x)) = trim (sanitizeInput x)
  /\ (sanitizeInput (VString (sanitizeInput x)) = sanitizeInput x
      <-> is_trimmed (sanitizeInput x) = true)
  /\ (typeof x <> "string"%string ->
      sanitizeInput (VString (sanitizeInput x)) = sanitizeInput x)
  /\ (forall s : jsstring, x = VString s ->
      bracket_free_ends (trim s) = true ->
      sanitizeInput (VString (sanitizeInput x)) = sanitizeInput x).
Proof.
  assert (Hiff : sanitizeInput (VString (sanitizeInput x)) = sanitizeInput x
                 <-> is_trimmed (sanitizeInput x) = true)
    by (rewrite sanitizeInput_again; apply trim_fixed).
  split; [apply sanitizeInput_again|]. split; [exact Hiff|]. split.
  - intros H. apply Hiff. now rewrite sanitizeInput_not_string.
  - intros s -> H. apply Hiff. rewrite sanitizeInput_string.
    apply filter_keeps_trimmed; [exact H | apply trim_is_trimmed].
Qed.

(** Scenario D's name, whose brackets stand at the ends of nothing but
    text after the first pass, and a padded string with brackets inside. *)
Lemma sanitizeInput_twice_witness :
  sanitizeInput (VString (sanitizeInput (VString (lit "<script>"))))
  = sanitizeInput (VString (lit "<script>"))
  /\ sanitizeInput (VString (sanitizeInput (VString (lit "  a<b>c "))))
     = sanitizeInput (VString (lit "  a<b>c ")).
Proof.
  split.
  - apply (proj1 (proj2 (sanitizeInput_twice (VString (lit "<script>"))))).
    reflexivity.
  - apply (proj2 (proj2 (proj2 (sanitizeInput_twice _))) _ eq_refl).
    reflexivity.
Defined.

(** C4 as the specification words it fails: on ["< a"] the first pass gives
    [" a"] and the second ["a"]. *)
Lemma sanitizeInput_not_idempotent :
  sanitizeInput (VString (sanitizeInput (VString (lit "< a"))))
  <> sanitizeInput (VString (lit "< a")).
Proof. discriminate. Qed.

(** ** What the templates embed *)

Lemma Contains_concat_at (pre post : list jsstring) (x : jsstring) :
  Contains (List.concat (pre ++ x :: post)) x.
Proof.
  exists (List.concat pre), (List.concat post). now rewrite concat_app.
Qed.

Lemma Contains_concat_3 (pre post : list jsstring) (x y z : jsstring) :
  Contains (List.concat (pre ++ x :: y :: z :: post)) (x ++ y ++ z).
Proof.
  exists (List.concat pre), (List.concat post). rewrite concat_app. cbn [List.concat].
  now rewrite <- !app_assoc.
Qed.

Lemma text_template_name (d : sanitized) (now : jsstring) :
  Contains (text_template d now) (s_name d).
Proof.
  unfold text_template.
  apply (Contains_concat_at
           [LF; lit "Contact Form Submission"; LF; LF; lit "Name: "]).
Qed.

Lemma text_template_email (d : sanitized) (now : jsstring) :
  Contains (text_template d now) (lit "Email: " ++ s_email d ++ LF).
Proof.
  unfold text_template.
  apply (Contains_concat_3
           [LF; lit "Contact Form Submission"; LF; LF; lit "Name: ";
            s_name d; LF]).
Qed.

Lemma html_template_email (d : sanitized) (now : jsstring) :
  Contains (html_template d now)
    (lit "        <p><strong>Email:</strong> " ++ s_email d ++ lit "</p>").
Proof.
  unfold html_template.
  apply (Contains_concat_3
           [LF; lit "        <h2>Contact Form Submission</h2>"; LF;
            lit "        <p><strong>Name:</strong> "; s_name d; lit "</p>";
            LF]).
Qed.

Lemma all_space_no_shape (s : jsstring) : all_space s -> ~ email_shape s.
Proof.
  intros Hs [l [d [t [-> [[Hne Hl] _]]]]].
  destruct l as [|c l]; [now contradiction Hne|].
  apply Forall_inv in Hs. apply Forall_inv in Hl.
  unfold plainChar in Hl. cbv beta in Hs. rewrite Hs in Hl. discriminate.
Qed.

(** ** The claims on the call of the mail module *)

(** C5: the handler calls [sendEmail] only when the four required fields are
    truthy and the validator has returned [true] on the e-mail, and it calls
    it once; the text and HTML bodies of the message are the two templates
    filled with the fields as [sanitizeInput] returns them, so two bodies
    that sanitize alike give the same text and HTML. *)
Theorem sendEmail_guarded (E : env) (b : body) (m : mail) :
  In (SendEmail m) (trace (send E b)) ->
  required_present b = true
  /\ isValidEmail (email b) = ret true
  /\ emails (trace (send E b)) = [m]
  /\ text m = text_template (sanitize_all b) (now_text E)
  /\ html m = html_template (sanitize_all b) (now_html E)
  /\ (forall (b' : body) (m' : mail),
        In (SendEmail m') (trace (send E b')) ->
        sanitize_all b' = sanitize_all b ->
        text m' = text m /\ html m' = html m).
Proof.
  intros Hin. apply send_called in Hin as [H [Hv ->]].
  repeat (split; [first [assumption | reflexivity
                        | now apply send_emails_validated]|]).
  intros b' m' Hin' Hs. apply send_called in Hin' as [_ [_ ->]].
  unfold mail_of. cbn [text html]. now rewrite Hs.
Qed.

(** Scenario A. *)
Lemma sendEmail_guarded_witness :
  required_present Scenario.A = true
  /\ isValidEmail (email Scenario.A) = ret true
  /\ emails (trace (send Scenario.delivering Scenario.A))
     = [mail_of Scenario.delivering Scenario.A].
Proof.
  destruct (sendEmail_guarded Scenario.delivering Scenario.A
              (mail_of Scenario.delivering Scenario.A))
    as [H [Hv [He _]]].
  - left. reflexivity.
  - exact (conj H (conj Hv He)).
Defined.

(** C6: when the mail module rejects, the handler answers with status 500
    and a failure payload whose message is the authentication one if the
    error's code is ["EAUTH"] and the try-again one for any other error; the
    response is one of these two fixed values, so nothing else of the error
    reaches the caller. *)
Theorem mail_failure_response (E : env) (b : body) (m : mail) (err : error) :
  In (SendEmail m) (trace (send E b)) ->
  sendEmail E m = Rejected err ->
  responses (trace (send E b)) = [failure_response err]
  /\ (code err = VString (lit "EAUTH") ->
      responses (trace (send E b)) = [authFailed])
  /\ (code err <> VString (lit "EAUTH") ->
      responses (trace (send E b)) = [sendFailed])
  /\ (failure_response err = authFailed \/ failure_response err = sendFailed).
Proof.
  intros Hin Herr. apply send_called in Hin as [H [Hv ->]].
  assert (Hr : responses (trace (send E b)) = [failure_response err])
    by (rewrite (send_validated E b H Hv), Herr; reflexivity).
  destruct (failure_response_cases err) as [Ha Ho].
  split; [exact Hr|]. split; [|split].
  - intros Hc. now rewrite Hr, Ha.
  - intros Hc. now rewrite Hr, Ho.
  - unfold failure_response.
    destruct (strict_eq_string (code err) (lit "EAUTH")); auto.
Qed.

(** Scenario A against a transport that rejects the credentials. *)
Lemma mail_failure_response_witness :
  responses (trace (send Scenario.unauthenticated Scenario.A)) = [authFailed].
Proof.
  refine (proj1 (proj2 (mail_failure_response
            Scenario.unauthenticated Scenario.A
            (mail_of Scenario.unauthenticated Scenario.A) _ _ _)) _).
  - left. reflexivity.
  - reflexivity.
  - reflexivity.
Defined.

(** C7: when the mail module resolves, the handler answers with status 200
    and the payload [{success: true, message: "Email sent successfully"}],
    and with nothing else. *)
Theorem mail_success_response (E : env) (b : body) (m : mail) :
  In (SendEmail m) (trace (send E b)) ->
  sendEmail E m = Resolved ->
  responses (trace (send E b)) = [emailSent]
  /\ snd (send E b) = inr tt.
Proof.
  intros Hin Hok. apply send_called in Hin as [H [Hv ->]].
  rewrite (send_validated E b H Hv), Hok. now split.
Qed.

(** Scenario A. *)
Lemma mail_success_response_witness :
  responses (trace (send Scenario.delivering Scenario.A)) = [emailSent].
Proof.
  refine (proj1 (mail_success_response Scenario.delivering Scenario.A
                   (mail_of Scenario.delivering Scenario.A) _ _)).
  - left. reflexivity.
  - reflexivity.
Defined.

(** C8: for a validated request the mail module is called once, with the
    configured address as recipient and with the fixed label followed by the
    sanitized subject as subject; in scenario A it receives the configured
    recipient, a subject containing ["Hi"] and a text containing ["Jo"]. *)
Theorem sendEmail_arguments :
  (forall (E : env) (b : body),
      required_present b = true -> isValidEmail (email b) = ret true ->
      exists m, emails (trace (send E b)) = [m]
                /\ to m = EMAIL_USER E
                /\ mail_subject m = subjectLabel ++ sanitizeInput (subject b))
  /\ (forall E : env,
        exists m, emails (trace (send E Scenario.A)) = [m]
                  /\ to m = EMAIL_USER E
                  /\ Contains (mail_subject m) (lit "Hi")
                  /\ Contains (text m) (lit "Jo")).
Proof.
  split.
  - intros E b H Hv. exists (mail_of E b).
    split; [now apply send_emails_validated | now split].
  - intros E. exists (mail_of E Scenario.A).
    split; [now apply send_emails_validated|]. split; [reflexivity|]. split.
    + exists subjectLabel, []. now rewrite app_nil_r.
    + apply (text_template_name (sanitize_all Scenario.A)).
Qed.

(** Scenario D, whose subject is ["s"]. *)
Lemma sendEmail_arguments_witness :
  exists m, emails (trace (send Scenario.delivering Scenario.D)) = [m]
            /\ to m = Scenario.recipient
            /\ mail_subject m = lit "Customer Form Apllication: s".
Proof.
  destruct (proj1 sendEmail_arguments Scenario.delivering Scenario.D
              eq_refl eq_refl) as [m Hm].
  exists m. exact Hm.
Defined.

(** ** The claims on what validation lets through *)

(** C9, as the code has it: a non-empty string of whitespace is truthy, so
    it passes the required-field check in any of the four fields, and it
    sanitizes to the empty string.  As [name], [subject] or [message] of an
    otherwise valid request it lets the mail be sent, with that field empty
    in the sanitized data the bodies are built from; as [email] it is
    answered with "Invalid email format." and no mail is sent. *)
Theorem whitespace_only_field (s : jsstring) :
  s <> [] -> all_space s ->
  truthy (VString s) = true
  /\ sanitizeInput (VString s) = lit ""
  /\ (forall (E : env) (b : body) (f : text_field),
        field_of f b = VString s ->
        required_present b = true -> isValidEmail (email b) = ret true ->
        emails (trace (send E b)) = [mail_of E b]
        /\ sanitized_of f (sanitize_all b) = lit "")
  /\ (forall (E : env) (b : body),
        email b = VString s -> required_present b = true ->
        send E b = ([Respond invalidEmail], inr tt)).
Proof.
  intros Hne Hs. split; [|split; [|split]].
  - simpl. now apply negb_true_iff, jsstring_eqb_nil.
  - now apply sanitizeInput_space.
  - intros E b f Hf H Hv. split; [now apply send_emails_validated|].
    destruct f; simpl in Hf |- *; rewrite Hf; now apply sanitizeInput_space.
  - intros E b He H. apply (send_no_shape E b s H).
    + now rewrite He.
    + now apply all_space_no_shape.
Qed.

(** A name of one space in scenario A. *)
Lemma whitespace_only_field_witness :
  truthy (name Scenario.blank_name) = true
  /\ emails (trace (send Scenario.delivering Scenario.blank_name))
     = [mail_of Scenario.delivering Scenario.blank_name]
  /\ s_name (sanitize_all Scenario.blank_name) = lit "".
Proof.
  assert (Hs : all_space (lit " ")) by (repeat constructor).
  destruct (whitespace_only_field (lit " ")) as [Ht [_ [Hf _]]].
  - discriminate.
  - exact Hs.
  - split; [exact Ht|].
    exact (Hf Scenario.delivering Scenario.blank_name FName
              eq_refl eq_refl eq_refl).
Defined.

(** C9 as the specification words it fails for the required field [email]:
    an e-mail of one space passes the required-field check, and no mail is
    sent. *)
Lemma whitespace_only_email_not_sent :
  email Scenario.blank_email = VString (lit " ")
  /\ required_present Scenario.blank_email = true
  /\ responses (trace (send Scenario.delivering Scenario.blank_email))
     = [invalidEmail]
  /\ emails (trace (send Scenario.delivering Scenario.blank_email)) = [].
Proof. repeat split. Qed.

(** C10: the validator accepts ["<>a@b.c"] and ["<>@b.c"], and the sanitizer
    turns them into ["a@b.c"] and ["@b.c"], which differ from what was
    validated; the second no longer has the shape of an e-mail.  The text
    and HTML bodies of a validated request carry the sanitized e-mail. *)
Theorem accepted_email_changed_by_sanitizer :
  (isValidEmail (VString (lit "<>a@b.c")) = ret true
   /\ sanitizeInput (VString (lit "<>a@b.c")) = lit "a@b.c"
   /\ sanitizeInput (VString (lit "<>a@b.c")) <> lit "<>a@b.c")
  /\ (isValidEmail (VString (lit "<>@b.c")) = ret true
      /\ sanitizeInput (VString (lit "<>@b.c")) = lit "@b.c"
      /\ sanitizeInput (VString (lit "<>@b.c")) <> lit "<>@b.c"
      /\ ~ email_shape (sanitizeInput (VString (lit "<>@b.c")))
      /\ isValidEmail (VString (sanitizeInput (VString (lit "<>@b.c"))))
         = ret false)
  /\ (forall (E : env) (b : body),
        required_present b = true -> isValidEmail (email b) = ret true ->
        exists m, emails (trace (send E b)) = [m]
          /\ Contains (text m) (lit "Email: " ++ sanitizeInput (email b) ++ LF)
          /\ Contains (html m)
               (lit "        <p><strong>Email:</strong> "
                ++ sanitizeInput (email b) ++ lit "</p>")).
Proof.
  split; [|split].
  - repeat split. discriminate.
  - repeat split; try discriminate.
    intros H. apply isValidEmail_true_shape in H. discriminate H.
  - intros E b H Hv. exists (mail_of E b).
    split; [now apply send_emails_validated|]. split.
    + apply (text_template_email (sanitize_all b)).
    + apply (html_template_email (sanitize_all b)).
Qed.

(** A request whose e-mail is ["<>@b.c"]: the bodies say ["@b.c"]. *)
Lemma accepted_email_changed_by_sanitizer_witness :
  exists m,
    emails (trace (send Scenario.delivering Scenario.bracketed_email)) = [m]
    /\ Contains (text m) (lit "Email: " ++ lit "@b.c" ++ LF)
    /\ Contains (html m)
         (lit "        <p><strong>Email:</strong> " ++ lit "@b.c" ++ lit "</p>").
Proof.
  destruct (proj2 (proj2 accepted_email_changed_by_sanitizer)
              Scenario.delivering Scenario.bracketed_email eq_refl eq_refl)
    as [m Hm].
  exists m. exact Hm.
Defined.

(** * Further properties of the code *)

(** ** The handler as a whole *)


(** X2: the handler answers with status 200 exactly when the required
    fields are present, the validator accepts the e-mail, and the mail
    module, called with the message of the body, resolves. *)
Theorem send_success_iff (E : env) (b : body) :
  (exists r, In (Respond r) (trace (send E b)) /\ status r = 200%N)
  <-> delivered E b.
Proof.
  unfold delivered. split.
  - intros [r [Hin Hr]]. rewrite send_run in Hin.
    destruct (required_present b); cbn [negb] in Hin.
    + destruct (ToString (email b)) as [s|] eqn:Hs.
      * destruct (regex_match emailRegex s) eqn:Hm.
        -- split; [reflexivity|].
           split; [apply isValidEmail_true; eauto|].
           destruct (sendEmail E (mail_of E b)) as [|err]; [reflexivity|].
           destruct Hin as [Hin|[Hin|[Hin|[]]]]; try discriminate.
           injection Hin as <-. unfold failure_response in Hr.
           destruct (strict_eq_string (code err) (lit "EAUTH")); discriminate.
        -- destruct Hin as [Hin|[]]. injection Hin as <-. discriminate.
      * destruct Hin as [Hin|[Hin|[]]]; try discriminate.
        injection Hin as <-. discriminate.
    + destruct Hin as [Hin|[]]. injection Hin as <-. discriminate.
  - intros [H [Hv Hok]]. exists emailSent.
    rewrite (send_validated E b H Hv), Hok. split; [|reflexivity].
    right. right. now left.
Qed.



(** X4: the [catch] block spans the validation too.  When the required
    fields are present and the e-mail is an object whose conversion to a
    string throws, the handler answers 500 "Email sending failed. Please try
    again later." although the mail module was never called. *)
Theorem send_unprintable_email (E : env) (b : body) :
  required_present b = true -> ToString (email b) = None ->
  send E b
  = ([ConsoleError (lit "Failed to send email:")
        (TypeError (lit "Cannot convert object to primitive value"));
      Respond sendFailed], inr tt)
  /\ emails (trace (send E b)) = [].
Proof. intros H He. now rewrite send_run, H, He. Qed.

Lemma send_unprintable_email_witness :
  responses (trace (send Scenario.delivering Scenario.unprintable_email))
  = [sendFailed]
  /\ emails (trace (send Scenario.delivering Scenario.unprintable_email)) = [].
Proof.
  destruct (send_unprintable_email Scenario.delivering
              Scenario.unprintable_email eq_refl eq_refl) as [Hr He].
  split; [now rewrite Hr | exact He].
Defined.

(** X5: a value that is not a string passes the two checks when it is
    truthy and, for the e-mail, when its conversion to a string has the
    shape of an address; the mail is then sent with that field empty, since
    the sanitizer turns every non-string into the empty string.  An address
    given in an array is accepted and leaves the line "Email: " empty. *)
Theorem send_non_string_field (E : env) (b : body) :
  required_present b = true -> isValidEmail (email b) = ret true ->
  emails (trace (send E b)) = [mail_of E b]
  /\ (typeof (email b) <> "string"%string ->
      s_email (sanitize_all b) = lit ""
      /\ Contains (text (mail_of E b)) (lit "Email: " ++ LF))
  /\ (forall f : text_field,
        typeof (field_of f b) <> "string"%string ->
        sanitized_of f (sanitize_all b) = lit "").
Proof.
  intros H Hv. split; [now apply send_emails_validated|]. split.
  - intros Ht. apply sanitizeInput_not_string in Ht. split; [exact Ht|].
    pose proof (text_template_email (sanitize_all b) (now_text E)) as Hc.
    cbn [sanitize_all s_email] in Hc. rewrite Ht in Hc. exact Hc.
  - intros f Ht. apply sanitizeInput_not_string in Ht. now destruct f.
Qed.

Lemma send_non_string_field_witness :
  emails (trace (send Scenario.delivering Scenario.array_email))
  = [mail_of Scenario.delivering Scenario.array_email]
  /\ s_email (sanitize_all Scenario.array_email) = lit "".
Proof.
  destruct (send_non_string_field Scenario.delivering Scenario.array_email
              eq_refl eq_refl) as [He [Hs _]].
  split; [exact He|]. apply Hs. discriminate.
Defined.

(** ** The phone line *)

Lemma filter_keeps_nil (s : jsstring) :
  filter keepsChar s = [] <-> Forall (fun c => isBracket c = true) s.
Proof.
  unfold keepsChar. induction s as [|c s IH]; simpl.
  - split; [constructor | reflexivity].
  - destruct (isBracket c) eqn:Hc; simpl.
    + rewrite IH. split; intros H; [now constructor | now inversion H].
    + split; [discriminate|]. intros H. inversion H. congruence.
Qed.

Lemma text_template_phone (d : sanitized) (now : jsstring) :
  Contains (text_template d now)
    (lit "Phone: " ++ or_else (s_phone d) (lit "Not provided") ++ LF).
Proof.
  unfold text_template.
  apply (Contains_concat_3
           [LF; lit "Contact Form Submission"; LF; LF; lit "Name: ";
            s_name d; LF; lit "Email: "; s_email d; LF]).
Qed.

Lemma html_template_phone (d : sanitized) (now : jsstring) :
  Contains (html_template d now)
    (lit "        <p><strong>Phone:</strong> "
     ++ or_else (s_phone d) (lit "Not provided") ++ lit "</p>").
Proof.
  unfold html_template.
  apply (Contains_concat_3
           [LF; lit "        <h2>Contact Form Submission</h2>"; LF;
            lit "        <p><strong>Name:</strong> "; s_name d; lit "</p>";
            LF;
            lit "        <p><strong>Email:</strong> "; s_email d; lit "</p>";
            LF]).
Qed.

(** X6: the phone of a validated request is rendered as "Not provided"
    exactly when it sanitizes to the empty string, which is the case when it
    is not a string (absent, or given as a number) and when its trimmed form
    holds nothing but brackets (empty and blank strings included); otherwise
    the sanitized phone is what the text says. *)
Theorem phone_line (E : env) (b : body) :
  required_present b = true -> isValidEmail (email b) = ret true ->
  emails (trace (send E b)) = [mail_of E b]
  /\ (sanitizeInput (phone b) = lit ""
      <-> typeof (phone b) <> "string"%string
          \/ exists s, phone b = VString s
                       /\ Forall (fun c => isBracket c = true) (trim s))
  /\ (sanitizeInput (phone b) = lit "" ->
      Contains (text (mail_of E b)) (lit "Phone: Not provided" ++ LF)
      /\ Contains (html (mail_of E b))
           (lit "        <p><strong>Phone:</strong> Not provided</p>"))
  /\ (sanitizeInput (phone b) <> lit "" ->
      Contains (text (mail_of E b))
        (lit "Phone: " ++ sanitizeInput (phone b) ++ LF)).
Proof.
  intros H Hv. split; [now apply send_emails_validated|].
  pose proof (text_template_phone (sanitize_all b) (now_text E)) as Ht.
  pose proof (html_template_phone (sanitize_all b) (now_html E)) as Hh.
  cbn [sanitize_all s_phone] in Ht, Hh. split; [|split].
  - destruct (phone b) as [| |x|n|s|o]; simpl typeof;
      try (split; [intros _; left; discriminate | reflexivity]).
    rewrite sanitizeInput_string. change (lit "") with (@nil N).
    rewrite filter_keeps_nil. split.
    + intros Hb. right. now exists s.
    + intros [Hn|[s' [[= <-] Hb]]]; [now contradiction Hn | exact Hb].
  - intros Hp. rewrite Hp in Ht, Hh. split; [exact Ht | exact Hh].
  - intros Hp. unfold or_else in Ht.
    destruct (jsstring_eqb (sanitizeInput (phone b)) []) eqn:Hq; [|exact Ht].
    apply jsstring_eqb_eq in Hq. now contradiction Hp.
Qed.

(** A phone given as a number is dropped. *)
Lemma phone_line_witness :
  Contains (text (mail_of Scenario.delivering Scenario.numeric_phone))
    (lit "Phone: Not provided" ++ LF).
Proof.
  destruct (phone_line Scenario.delivering Scenario.numeric_phone
              eq_refl eq_refl) as [_ [_ [Hn _]]].
  apply Hn. reflexivity.
Defined.

(** ** Brackets and line breaks in the bodies *)

Lemma count_app (c : N) (s t : jsstring) :
  count c (s ++ t) = count c s + count c t.
Proof. apply count_occ_app. Qed.

Lemma count_concat (c : N) (l : list jsstring) :
  count c (List.concat l) = list_sum (map (count c) l).
Proof.
  induction l as [|s l IH]; simpl; [reflexivity|].
  now rewrite count_app, IH.
Qed.

Lemma count_no_bracket (s : jsstring) :
  Forall (fun c => isBracket c = false) s -> count 60 s = 0 /\ count 62 s = 0.
Proof.
  intros H. split; apply count_occ_not_In; intros Hin;
    apply (proj1 (Forall_forall _ _) H) in Hin; discriminate.
Qed.

Lemma count_cons (c d : N) (s : jsstring) :
  count c (d :: s) = (if N.eqb d c then 1 else 0) + count c s.
Proof.
  unfold count. cbn [count_occ].
  destruct (N.eq_dec d c) as [->|Hn].
  - now rewrite N.eqb_refl.
  - apply N.eqb_neq in Hn. now rewrite Hn.
Qed.

Lemma count_line_breaks (c : N) (s : jsstring) :
  c <> 10%N ->
  count c (replace_global (Single 10) (lit "<br>") s)
  = count c s + count c (lit "<br>") * count 10 s.
Proof.
  intros Hc. unfold replace_global.
  induction s as [|d s IH]; cbn [flat_map].
  - unfold count. simpl. lia.
  - rewrite count_app, IH, !count_cons. cbn [class_matches].
    destruct (N.eqb_spec d 10) as [->|Hd].
    + assert (Hf : N.eqb 10 c = false) by (apply N.eqb_neq; congruence).
      rewrite Hf. nia.
    + rewrite count_cons. change (count c []) with 0.
      destruct (N.eqb d c); nia.
Qed.

Lemma count_or_else (c : N) (s d : jsstring) :
  count c s = 0 -> count c d = 0 -> count c (or_else s d) = 0.
Proof. unfold or_else. now destruct (jsstring_eqb s []). Qed.

Lemma sanitize_all_no_bracket (b : body) (c : N) :
  isBracket c = true ->
  count c (s_name (sanitize_all b)) = 0
  /\ count c (s_email (sanitize_all b)) = 0
  /\ count c (s_phone (sanitize_all b)) = 0
  /\ count c (s_subject (sanitize_all b)) = 0
  /\ count c (s_message (sanitize_all b)) = 0.
Proof.
  intros Hc. cbn [sanitize_all s_name s_email s_phone s_subject s_message].
  repeat split; apply count_occ_not_In; intros Hin;
    apply (proj1 (Forall_forall _ _) (sanitizeInput_no_bracket _)) in Hin;
    congruence.
Qed.

Ltac count_literals :=
  repeat match goal with
         | |- context [count ?c (lit ?s)] =>
             let v := eval vm_compute in (count c (lit s)) in
             change (count c (lit s)) with v
         | |- context [count ?c LF] =>
             let v := eval vm_compute in (count c LF) in
             change (count c LF) with v
         end.

Lemma html_template_count (b : body) (now : jsstring) (c : N) :
  isBracket c = true -> count c now = 0 ->
  count c (html_template (sanitize_all b) now)
  = 27 + count 10 (sanitizeInput (message_ b)).
Proof.
  intros Hc Hnow.
  destruct (sanitize_all_no_bracket b c Hc) as [Hn [He [Hp [Hs Hm]]]].
  assert (Hlf : c <> 10%N) by (intros ->; discriminate).
  assert (Hbr : count c (lit "<br>") = 1).
  { unfold isBracket in Hc. apply orb_prop in Hc as [Hc|Hc];
      apply N.eqb_eq in Hc; subst c; reflexivity. }
  assert (Hnp : count c (lit "Not provided") = 0).
  { unfold isBracket in Hc. apply orb_prop in Hc as [Hc|Hc];
      apply N.eqb_eq in Hc; subst c; reflexivity. }
  unfold html_template. rewrite count_concat. cbn [map list_sum].
  rewrite (count_or_else c _ _ Hp Hnp), (count_line_breaks c _ Hlf).
  rewrite Hn, He, Hs, Hm, Hnow, Hbr.
  change (s_message (sanitize_all b)) with (sanitizeInput (message_ b)).
  generalize (count 10 (sanitizeInput (message_ b))). intros n.
  unfold isBracket in Hc. apply orb_prop in Hc as [Hc|Hc];
    apply N.eqb_eq in Hc; subst c; count_literals; cbn [list_sum fold_right]; lia.
Qed.

Lemma text_template_count (b : body) (now : jsstring) (c : N) :
  isBracket c = true -> count c now = 0 ->
  count c (text_template (sanitize_all b) now) = 0.
Proof.
  intros Hc Hnow.
  destruct (sanitize_all_no_bracket b c Hc) as [Hn [He [Hp [Hs Hm]]]].
  assert (Hnp : count c (lit "Not provided") = 0).
  { unfold isBracket in Hc. apply orb_prop in Hc as [Hc|Hc];
      apply N.eqb_eq in Hc; subst c; reflexivity. }
  unfold text_template. rewrite count_concat. cbn [map list_sum].
  rewrite (count_or_else c _ _ Hp Hnp).
  rewrite Hn, He, Hs, Hm, Hnow.
  unfold isBracket in Hc. apply orb_prop in Hc as [Hc|Hc];
    apply N.eqb_eq in Hc; subst c; count_literals; cbn [list_sum fold_right]; lia.
Qed.

(** X7: no field of the body can put an angle bracket into the bodies of the
    message.  With a clock reading free of brackets, the text body holds no
    ['<'] and no ['>'], and the HTML body holds the 27 of each that the
    template has, plus one of each for every line feed of the sanitized
    message (its [<br>]). *)
Theorem bodies_brackets (E : env) (b : body) :
  Forall (fun c => isBracket c = false) (now_text E) ->
  Forall (fun c => isBracket c = false) (now_html E) ->
  (count 60 (text (mail_of E b)) = 0 /\ count 62 (text (mail_of E b)) = 0)
  /\ count 60 (html (mail_of E b))
     = 27 + count 10 (sanitizeInput (message_ b))
  /\ count 62 (html (mail_of E b))
     = 27 + count 10 (sanitizeInput (message_ b)).
Proof.
  intros Ht Hh. apply count_no_bracket in Ht as [Ht1 Ht2].
  apply count_no_bracket in Hh as [Hh1 Hh2]. cbn [mail_of text html].
  repeat split;
    first [now apply text_template_count | now apply html_template_count].
Qed.

(** Scenario D, whose name is ["<script>"]: the HTML body has the 27
    opening brackets of the template and no other. *)
Lemma bodies_brackets_witness :
  count 60 (html (mail_of Scenario.delivering Scenario.D)) = 27.
Proof.
  refine (proj1 (proj2 (bodies_brackets Scenario.delivering Scenario.D _ _)));
    apply Forall_forall; intros c Hc; vm_compute in Hc;
    repeat (destruct Hc as [<-|Hc]; [reflexivity|]); destruct Hc.
Defined.

Lemma line_breaks_cons (c : N) (s : jsstring) :
  replace_global (Single 10) (lit "<br>") (c :: s)
  = (if N.eqb c 10 then [60; 98; 114; 62]%N else [c])
    ++ replace_global (Single 10) (lit "<br>") s.
Proof. reflexivity. Qed.

Lemma line_breaks_injective (s t : jsstring) :
  Forall (fun c => isBracket c = false) s ->
  Forall (fun c => isBracket c = false) t ->
  replace_global (Single 10) (lit "<br>") s
  = replace_global (Single 10) (lit "<br>") t ->
  s = t.
Proof.
  intros Hs. revert t.
  induction Hs as [|c s Hc Hs IH]; intros t Ht Heq.
  - destruct Ht as [|d t Hd Ht]; [reflexivity|].
    rewrite line_breaks_cons in Heq. now destruct (N.eqb d 10).
  - destruct Ht as [|d t Hd Ht].
    + rewrite line_breaks_cons in Heq. now destruct (N.eqb c 10).
    + rewrite !line_breaks_cons in Heq.
      destruct (N.eqb_spec c 10) as [->|Hc10];
        destruct (N.eqb_spec d 10) as [->|Hd10]; simpl in Heq.
      * injection Heq as Heq. f_equal. now apply IH.
      * injection Heq as <- _. discriminate Hd.
      * injection Heq as -> _. discriminate Hc.
      * injection Heq as -> Heq. f_equal. now apply IH.
Qed.

Lemma line_breaks_none (s : jsstring) :
  count 10 (replace_global (Single 10) (lit "<br>") s) = 0.
Proof.
  induction s as [|c s IH]; [reflexivity|].
  rewrite line_breaks_cons, count_app, IH.
  destruct (N.eqb_spec c 10) as [->|Hc]; [reflexivity|].
  rewrite count_cons. apply N.eqb_neq in Hc. now rewrite Hc.
Qed.

(** X8: the HTML body turns every line feed of the sanitized message into
    [<br>] and leaves none; as a sanitized message holds no bracket, nothing
    is lost by it: two sanitized messages with the same HTML form are the
    same message. *)
Theorem line_breaks_faithful (x y : value) :
  count 10 (replace_global (Single 10) (lit "<br>") (sanitizeInput x)) = 0
  /\ (replace_global (Single 10) (lit "<br>") (sanitizeInput x)
      = replace_global (Single 10) (lit "<br>") (sanitizeInput y) ->
      sanitizeInput x = sanitizeInput y).
Proof.
  split; [apply line_breaks_none|].
  apply line_breaks_injective; apply sanitizeInput_no_bracket.
Qed.

(** A message of two lines, with and without a leading space. *)
Lemma line_breaks_faithful_witness :
  sanitizeInput (VString [97; 10; 98]%N)
  = sanitizeInput (VString [32; 97; 10; 98]%N).
Proof.
  apply (proj2 (line_breaks_faithful (VString [97; 10; 98]%N)
                  (VString [32; 97; 10; 98]%N))).
  reflexivity.
Defined.

(** ** More on the validator and the sanitizer *)

Lemma plain_part_facts (s : jsstring) :
  plain_part s ->
  1 <= List.length s /\ count 64 s = 0
  /\ Forall (fun c => isWhiteSpace c = false) s.
Proof.
  intros [Hne H]. split; [|split].
  - destruct s; [now contradiction Hne | simpl; lia].
  - apply count_occ_not_In. intros Hin.
    apply (proj1 (Forall_forall _ _) H) in Hin. discriminate Hin.
  - eapply Forall_impl; [|exact H]. intros c Hc. cbv beta in Hc.
    unfold plainChar in Hc. apply andb_prop in Hc as [Hc _].
    now apply negb_true_iff in Hc.
Qed.

Lemma email_shape_no_space (s : jsstring) :
  email_shape s -> Forall (fun c => isWhiteSpace c = false) s.
Proof.
  intros [l [d [t [-> [Hl [Hd Ht]]]]]].
  apply plain_part_facts in Hl as [_ [_ Wl]].
  apply plain_part_facts in Hd as [_ [_ Wd]].
  apply plain_part_facts in Ht as [_ [_ Wt]].
  repeat (apply Forall_app; split); try assumption; now repeat constructor.
Qed.

(** X9: what the validator accepts has exactly one ['@'], which is not its
    first code unit, a ['.'] somewhere behind the ['@'], no whitespace, and
    at least five code units. *)
Theorem isValidEmail_accepts_only (s : jsstring) :
  isValidEmail (VString s) = ret true ->
  count 64 s = 1
  /\ Forall (fun c => isWhiteSpace c = false) s
  /\ 5 <= List.length s
  /\ exists l r, s = l ++ [64%N] ++ r /\ l <> [] /\ In 46%N r.
Proof.
  intros H. apply isValidEmail_true_shape in H
    as [l [d [t [-> [Hl [Hd Ht]]]]]].
  pose proof Hl as [Hne _].
  apply plain_part_facts in Hl as [Ll [Cl Wl]].
  apply plain_part_facts in Hd as [Ld [Cd Wd]].
  apply plain_part_facts in Ht as [Lt [Ct Wt]].
  split; [|split; [|split]].
  - rewrite !count_app, Cl, Cd, Ct. reflexivity.
  - repeat (apply Forall_app; split); try assumption; now repeat constructor.
  - rewrite !length_app. simpl. lia.
  - exists l, (d ++ [46%N] ++ t). split; [reflexivity|]. split; [exact Hne|].
    apply in_or_app. right. now left.
Qed.

Lemma isValidEmail_accepts_only_witness :
  count 64 (lit "jo@ex.com") = 1.
Proof.
  apply (isValidEmail_accepts_only (lit "jo@ex.com")). reflexivity.
Defined.

Lemma no_space_trimmed (s : jsstring) :
  Forall (fun c => isWhiteSpace c = false) s -> is_trimmed s = true.
Proof.
  intros H. unfold is_trimmed.
  assert (Hh : forall t, Forall (fun c => isWhiteSpace c = false) t ->
                         startsWithSpace t = false)
    by (intros t Ht; destruct Ht as [|c t Hc _]; [reflexivity | exact Hc]).
  rewrite (Hh s H), (Hh (rev s)) by now apply Forall_rev. reflexivity.
Qed.

(** X10: an accepted e-mail string without ['<'] and ['>'] comes out of the
    sanitizer as it went in, so the address the bodies of the message carry
    is the very string the validator accepted. *)
Theorem accepted_email_kept (E : env) (b : body) (s : jsstring) :
  required_present b = true -> email b = VString s ->
  isValidEmail (VString s) = ret true ->
  Forall (fun c => isBracket c = false) s ->
  sanitizeInput (email b) = s
  /\ emails (trace (send E b)) = [mail_of E b]
  /\ Contains (text (mail_of E b)) (lit "Email: " ++ s ++ LF)
  /\ Contains (html (mail_of E b))
       (lit "        <p><strong>Email:</strong> " ++ s ++ lit "</p>").
Proof.
  intros H He Hv Hb.
  assert (Hs : sanitizeInput (email b) = s).
  { rewrite He, sanitizeInput_string.
    pose proof (email_shape_no_space s
                  (proj1 (isValidEmail_true_shape s) Hv)) as Hw.
    apply no_space_trimmed, trim_fixed in Hw. rewrite Hw.
    now apply filter_keeps_fixed. }
  split; [exact Hs|]. rewrite <- He in Hv.
  split; [now apply send_emails_validated|].
  pose proof (text_template_email (sanitize_all b) (now_text E)) as Ht.
  pose proof (html_template_email (sanitize_all b) (now_html E)) as Hh.
  cbn [sanitize_all s_email] in Ht, Hh. rewrite Hs in Ht, Hh. now split.
Qed.

(** Scenario A. *)
Lemma accepted_email_kept_witness :
  sanitizeInput (email Scenario.A) = lit "jo@ex.com".
Proof.
  refine (proj1 (accepted_email_kept Scenario.delivering Scenario.A
                   (lit "jo@ex.com") eq_refl eq_refl eq_refl _)).
  apply Forall_forall. intros c Hc. vm_compute in Hc.
  repeat (destruct Hc as [<-|Hc]; [reflexivity|]). destruct Hc.
Defined.

Lemma filter_keeps_length (s : jsstring) :
  List.length (filter keepsChar s) <= List.length s.
Proof.
  induction s as [|c s IH]; simpl; [lia|].
  destruct (keepsChar c); simpl; lia.
Qed.

Lemma trim_length (s : jsstring) : List.length (trim s) <= List.length s.
Proof.
  destruct (trim_TrimOf s) as [l [r [Hs _]]].
  rewrite Hs at 2. rewrite !length_app. lia.
Qed.

Lemma trim_same_length (s : jsstring) :
  List.length (trim s) = List.length s -> trim s = s.
Proof.
  destruct (trim_TrimOf s) as [l [r [Hs _]]]. intros Hl.
  rewrite Hs in Hl at 2. rewrite !length_app in Hl.
  destruct l; [|simpl in Hl; lia]. destruct r; [|simpl in Hl; lia].
  rewrite Hs at 2. simpl. now rewrite app_nil_r.
Qed.

(** X11: the strings the sanitizer leaves as they are are exactly the
    strings without whitespace at either end and without ['<'] and ['>'];
    on every other string it returns something shorter. *)
Theorem sanitizeInput_fixed (s : jsstring) :
  (sanitizeInput (VString s) = s
   <-> is_trimmed s = true /\ Forall (fun c => isBracket c = false) s)
  /\ (sanitizeInput (VString s) <> s ->
      List.length (sanitizeInput (VString s)) < List.length s).
Proof.
  assert (Hle : List.length (sanitizeInput (VString s)) <= List.length s).
  { rewrite sanitizeInput_string.
    pose proof (filter_keeps_length (trim s)). pose proof (trim_length s). lia. }
  assert (Heq : List.length (sanitizeInput (VString s)) = List.length s ->
                sanitizeInput (VString s) = s).
  { rewrite sanitizeInput_string. intros Hl.
    pose proof (filter_keeps_length (trim s)) as H1.
    pose proof (trim_length s) as H2.
    assert (Ht : trim s = s) by (apply trim_same_length; lia).
    rewrite Ht in Hl |- *.
    clear - Hl. induction s as [|c s IH]; [reflexivity|].
    simpl in Hl |- *. pose proof (filter_keeps_length s).
    destruct (keepsChar c); simpl in Hl; [f_equal; apply IH; lia | lia]. }
  split.
  - split.
    + intros H. pose proof (sanitizeInput_no_bracket (VString s)) as Hb.
      rewrite H in Hb. split; [|exact Hb].
      apply trim_fixed. rewrite sanitizeInput_string in H.
      rewrite filter_keeps_fixed in H by now apply trim_Forall. exact H.
    + intros [Ht Hb]. rewrite sanitizeInput_string.
      apply trim_fixed in Ht. rewrite Ht. now apply filter_keeps_fixed.
  - intros Hne.
    assert (Hl : List.length (sanitizeInput (VString s)) = List.length s
                 \/ List.length (sanitizeInput (VString s)) < List.length s)
      by lia.
    destruct Hl as [Hl|Hl]; [|exact Hl]. contradiction Hne. now apply Heq.
Qed.

(** A padded name loses its padding and its brackets. *)
Lemma sanitizeInput_fixed_witness :
  List.length (sanitizeInput (VString (lit " <b> "))) < List.length (lit " <b> ").
Proof.
  apply (proj2 (sanitizeInput_fixed (lit " <b> "))). discriminate.
Defined.

Lemma filter_keeps_count (t : jsstring) (c : N) :
  isBracket c = false -> count c (filter keepsChar t) = count c t.
Proof.
  intros Hc. induction t as [|d t IH]; [reflexivity|].
  simpl filter. unfold keepsChar at 1.
  destruct (isBracket d) eqn:Hd; cbn [negb]; rewrite !count_cons, IH.
  - destruct (N.eqb_spec d c) as [->|_]; [congruence | reflexivity].
  - reflexivity.
Qed.

(** X12: the sanitizer removes brackets and nothing else from the trimmed
    input: every other code unit, ['&'], quotes and inner line breaks among
    them, is in the output as often as in the trimmed input. *)
Theorem sanitizeInput_keeps (s : jsstring) (c : N) :
  isBracket c = false ->
  count c (sanitizeInput (VString s)) = count c (trim s).
Proof.
  intros Hc. rewrite sanitizeInput_string. now apply filter_keeps_count.
Qed.

(** The ampersand and the quote of [a&"b"<c>] stay. *)
Lemma sanitizeInput_keeps_witness :
  count 38 (sanitizeInput (VString [97; 38; 34; 98; 34; 60; 99; 62]%N)) = 1.
Proof.
  rewrite (sanitizeInput_keeps [97; 38; 34; 98; 34; 60; 99; 62]%N 38 eq_refl).
  reflexivity.
Defined.

(** X13: the subject line of the message is the label followed by the
    sanitized subject, inner line breaks included: every code unit other
    than a bracket is in it as often as in the label and the trimmed subject
    field together. *)
Theorem subject_line_keeps (E : env) (b : body) (s : jsstring) (c : N) :
  required_present b = true -> isValidEmail (email b) = ret true ->
  subject b = VString s -> isBracket c = false ->
  exists m, emails (trace (send E b)) = [m]
            /\ count c (mail_subject m) = count c subjectLabel + count c (trim s).
Proof.
  intros H Hv Hs Hc. exists (mail_of E b).
  split; [now apply send_emails_validated|].
  cbn [mail_of mail_subject]. rewrite count_app, Hs.
  f_equal. rewrite sanitizeInput_string. now apply filter_keeps_count.
Qed.

(** A subject of two lines: the line feed reaches the subject line. *)
Lemma subject_line_keeps_witness :
  exists m,
    emails (trace (send Scenario.delivering
                     {| name := VString (lit "Jo");
                        email := VString (lit "jo@ex.com");
                        phone := VUndefined;
                        subject := VString [72; 105; 10; 66; 99; 99; 58]%N;
                        message_ := VString (lit "Hello") |})) = [m]
    /\ count 10 (mail_subject m) = 1.
Proof.
  destruct (subject_line_keeps Scenario.delivering
              {| name := VString (lit "Jo");
                 email := VString (lit "jo@ex.com");
                 phone := VUndefined;
                 subject := VString [72; 105; 10; 66; 99; 99; 58]%N;
                 message_ := VString (lit "Hello") |}
              [72; 105; 10; 66; 99; 99; 58]%N 10
              eq_refl eq_refl eq_refl eq_refl) as [m [Hm Hc]].
  exists m. split; [exact Hm | exact Hc].
Defined.

(** ** Start-up *)

(** X14: the lines logged at start-up show the user name but never the
    password: two environments with the same [EMAIL_USER], in both of which
    [EMAIL_PASS] is set to a non-empty string or in neither, log the same
    lines, and the password line is one of two fixed lines. *)
Theorem startup_log_hides_password
    (P P' : process_env) (cwd dirname : jsstring) :
  env_EMAIL_USER P = env_EMAIL_USER P' ->
  truthy (env_value (env_EMAIL_PASS P))
  = truthy (env_value (env_EMAIL_PASS P')) ->
  startup_log P cwd dirname = startup_log P' cwd dirname
  /\ (nth 3 (startup_log P cwd dirname) (ConsoleLog [])
      = ConsoleLog (lit "EMAIL_PASSWORD: LOADED")
      \/ nth 3 (startup_log P cwd dirname) (ConsoleLog [])
         = ConsoleLog (lit "EMAIL_PASSWORD: MISSING")).
Proof.
  intros Hu Hp. unfold startup_log. rewrite Hu, Hp. split; [reflexivity|].
  cbn [nth]. destruct (truthy (env_value (env_EMAIL_PASS P'))); auto.
Qed.

(** Two passwords. *)
Lemma startup_log_hides_password_witness :
  startup_log
    {| env_EMAIL_USER := Some (lit "owner@example.org");
       env_EMAIL_PASS := Some (lit "hunter2") |}
    (lit "/srv/app") (lit "/srv/app")
  = startup_log
      {| env_EMAIL_USER := Some (lit "owner@example.org");
         env_EMAIL_PASS := Some (lit "correct horse") |}
      (lit "/srv/app") (lit "/srv/app").
Proof.
  apply (startup_log_hides_password
           {| env_EMAIL_USER := Some (lit "owner@example.org");
              env_EMAIL_PASS := Some (lit "hunter2") |}
           {| env_EMAIL_USER := Some (lit "owner@example.org");
              env_EMAIL_PASS := Some (lit "correct horse") |}
           (lit "/srv/app") (lit "/srv/app")); reflexivity.
Defined.
